(** * Question/answer segmentation of OCR text: the line classifier

    Shallow embedding of [separate_qa_with_regex] from
    [Question_Answer_segmentation.py] and the properties of its line
    classifier.

    Text is modelled by [string]: a character is a code point below 256
    (the Latin-1 range of Python's [str]), and the Unicode-aware classes
    [\w] and [\s] of Python's [re] are written out on that range.  The
    [results] dict is a [gmap] from keys to lists; the subscript
    [results[current_mode]] is the one operation of the classifier that can
    raise, so every function that reaches it returns an [option]. *)

From Stdlib Require Import String Ascii NArith List Bool Lia.
From Stdlib Require Import DecimalString DecimalNat.
From stdpp Require Import base option list strings gmap.
Import ListNotations.

Local Open Scope string_scope.

(** ** Characters and Python's character classes *)

Definition code (c : ascii) : N := N_of_ascii c.

Definition between (lo hi : N) (c : ascii) : bool :=
  ((lo <=? code c) && (code c <=? hi))%N.

(** [str.isspace], which both [str.strip()] and the class [\s] use. *)
Definition is_space (c : ascii) : bool :=
  between 9 13 c || between 28 32 c || between 133 133 c || between 160 160 c.

(** The class [\w] of a [str] pattern: alphanumeric characters and [_]. *)
Definition is_word (c : ascii) : bool :=
  between 48 57 c || between 65 90 c || between 95 95 c || between 97 122 c
  || between 170 170 c || between 178 179 c || between 181 181 c
  || between 185 186 c || between 188 190 c || between 192 214 c
  || between 216 246 c || between 248 255 c.

(** Case folding as [re.IGNORECASE] does it below code point 256 for the
    ASCII letters the patterns mention. *)
Definition lower (c : ascii) : ascii :=
  if between 65 90 c then ascii_of_N (code c + 32) else c.

(** Membership in a bracket class [[...]] listed character by character. *)
Fixpoint in_class (cs : string) (c : ascii) : bool :=
  match cs with
  | EmptyString => false
  | String x cs' => Ascii.eqb x c || in_class cs' c
  end.

(** The same class under [re.IGNORECASE]. *)
Fixpoint in_class_ic (cs : string) (c : ascii) : bool :=
  match cs with
  | EmptyString => false
  | String x cs' => Ascii.eqb (lower x) (lower c) || in_class_ic cs' c
  end.

(** [[a-z]] under [re.IGNORECASE]. *)
Definition a_to_z_ic (c : ascii) : bool := between 97 122 (lower c).

(** ** String operations of the source *)

(** Truth value of a [str]: non-empty. *)
Definition truthy (s : string) : bool :=
  match s with EmptyString => false | String _ _ => true end.

Fixpoint lstrip (s : string) : string :=
  match s with
  | EmptyString => EmptyString
  | String c s' => if is_space c then lstrip s' else s
  end.

Fixpoint rstrip (s : string) : string :=
  match s with
  | EmptyString => EmptyString
  | String c s' =>
      match rstrip s' with
      | EmptyString => if is_space c then EmptyString else String c EmptyString
      | r => String c r
      end
  end.

(** [s.strip()] *)
Definition strip (s : string) : string := rstrip (lstrip s).

(** [s.endswith('?')] *)
Fixpoint endswith_qmark (s : string) : bool :=
  match s with
  | EmptyString => false
  | String c EmptyString => Ascii.eqb c "?"
  | String _ s' => endswith_qmark s'
  end.

(** [text.split('\n')]: never the empty list, [""] splits to [[""]]. *)
Fixpoint split_lines (text : string) : list string :=
  match text with
  | EmptyString => [EmptyString]
  | String c text' =>
      if Ascii.eqb c "010" then EmptyString :: split_lines text'
      else match split_lines text' with
           | l :: ls => String c l :: ls
           | [] => [String c EmptyString]
           end
  end.

(** [re.sub(r'\s+', ' ', s)]: every maximal run of whitespace becomes one
    space.  [in_run] tells that the previous character was whitespace. *)
Fixpoint collapse_from (in_run : bool) (s : string) : string :=
  match s with
  | EmptyString => EmptyString
  | String c s' =>
      if is_space c
      then if in_run then collapse_from true s'
           else String " " (collapse_from true s')
      else String c (collapse_from false s')
  end.

Definition collapse_ws (s : string) : string := collapse_from false s.

(** The characters kept by [re.sub(r'[^\w\s\?\.\,\:\;\(\)\-]', '', line)]. *)
Definition allowed (c : ascii) : bool :=
  is_word c || is_space c || in_class "?.,:;()-" c.

Fixpoint remove_disallowed (s : string) : string :=
  match s with
  | EmptyString => EmptyString
  | String c s' =>
      if allowed c then String c (remove_disallowed s') else remove_disallowed s'
  end.

(** ** The regular expressions *)

(** The fragment of [re] the three patterns are written in.  Every
    alternative of every pattern begins with [^], and the patterns are only
    applied at index 0, so the anchor is implicit in [re_match]. *)
Inductive regex : Type :=
  | Cls (p : ascii -> bool)          (* one character of a class *)
  | Star (p : ascii -> bool)         (* greedy [c*] over a class *)
  | Cat (r1 r2 : regex)
  | Alt (r1 r2 : regex).

(** Greedy star with backtracking: the longest run first. *)
Fixpoint star_k (p : ascii -> bool) (s : string)
    (k : string -> option string) : option string :=
  match s with
  | EmptyString => k EmptyString
  | String c s' =>
      if p c
      then match star_k p s' k with
           | Some r => Some r
           | None => k s
           end
      else k s
  end.

(** Backtracking matcher in continuation style; the result is the text left
    after the first match in [re]'s priority order. *)
Fixpoint match_k (r : regex) (s : string)
    (k : string -> option string) : option string :=
  match r with
  | Cls p =>
      match s with
      | String c s' => if p c then k s' else None
      | EmptyString => None
      end
  | Star p => star_k p s k
  | Cat r1 r2 => match_k r1 s (fun s' => match_k r2 s' k)
  | Alt r1 r2 =>
      match match_k r1 s k with
      | Some rest => Some rest
      | None => match_k r2 s k
      end
  end.

(** [re.match(r, s, re.IGNORECASE)]: the remainder after the match. *)
Definition re_match_rest (r : regex) (s : string) : option string :=
  match_k r s Some.

Definition re_match (r : regex) (s : string) : bool :=
  match re_match_rest r s with Some _ => true | None => false end.

(** [re.sub(r, '', s, flags=re.IGNORECASE)] for a pattern anchored by [^]:
    the only possible match is the one at index 0. *)
Definition re_sub_prefix (r : regex) (s : string) : string :=
  match re_match_rest r s with Some rest => rest | None => s end.

Fixpoint cat_all (rs : list regex) (last : regex) : regex :=
  match rs with
  | [] => last
  | r :: rs' => Cat r (cat_all rs' last)
  end.

(** The literal [w] under [re.IGNORECASE], one class per character. *)
Fixpoint lit_ic (w : string) (last : regex) : regex :=
  match w with
  | EmptyString => last
  | String c w' => Cat (Cls (fun x => Ascii.eqb (lower c) (lower x))) (lit_ic w' last)
  end.

Definition ws_star : regex := Star is_space.

(** [^[QqBb][\.\)\:\-]\s*] *)
Definition q_markers : regex :=
  cat_all [Cls (in_class_ic "QqBb"); Cls (in_class ".):-")] ws_star.

(** [^[Aa][\.\)\:\-]\s*|^[Aa]ns[\.\)\:\-]\s*|^[Aa]nswer[\.\)\:\-]\s*] *)
Definition a_markers : regex :=
  Alt (cat_all [Cls (in_class_ic "Aa"); Cls (in_class ".):-")] ws_star)
 (Alt (Cat (Cls (in_class_ic "Aa"))
           (lit_ic "ns" (Cat (Cls (in_class ".):-")) ws_star)))
      (Cat (Cls (in_class_ic "Aa"))
           (lit_ic "nswer" (Cat (Cls (in_class ".):-")) ws_star)))).

(** [^\s*[a-z]\s*[\.\)\:]\s*|^\s*\([a-z]\)\s*|^\s*[uw]\s*\)] *)
Definition subdivision : regex :=
  Alt (cat_all [ws_star; Cls a_to_z_ic; ws_star; Cls (in_class ".):")] ws_star)
 (Alt (cat_all [ws_star; Cls (in_class "("); Cls a_to_z_ic; Cls (in_class ")")]
               ws_star)
      (cat_all [ws_star; Cls (in_class_ic "uw"); ws_star] (Cls (in_class ")")))).

(** ** Classifier state *)

Record state : Type := State {
  results : gmap string (list string);
  current_mode : option string;
  current_text : string;
  previous_line_was_empty : bool
}.

(** [results = {"Questions": [], "Answers": []}], no mode, empty buffer. *)
Definition initial_state : state :=
  State (<["Questions" := []]> (<["Answers" := []]> ∅)) None "" false.

(** Truth value of [current_mode]: [None] and the empty string are false. *)
Definition mode_truthy (m : option string) : bool :=
  match m with Some k => truthy k | None => false end.

(** [current_mode == k] *)
Definition mode_is (m : option string) (k : string) : bool :=
  match m with Some x => String.eqb x k | None => false end.

Definition set_blank (s : state) : state :=
  State (results s) (current_mode s) (current_text s) true.

(** [current_text += " " + line] when the buffer is non-empty, otherwise
    [current_text = line]. *)
Definition extend (text line : string) : string :=
  if truthy text then text +:+ " " +:+ line else line.

(** [save_current_item]: [None] stands for the [KeyError] that
    [results[current_mode]] raises on a key the dict does not have. *)
Definition save_current_item (s : state) : option state :=
  if truthy (current_text s) && mode_truthy (current_mode s) then
    let text := strip (collapse_ws (current_text s)) in
    if truthy text then
      k ← current_mode s;
      items ← results s !! k;
      Some (State (<[k := (items ++ [text])%list]> (results s)) (current_mode s) ""
                  (previous_line_was_empty s))
    else
      Some (State (results s) (current_mode s) "" (previous_line_was_empty s))
  else
    Some (State (results s) (current_mode s) "" (previous_line_was_empty s)).

(** ** One line *)

(** The priority rules applied to a cleaned, non-empty [line]. *)
Definition apply_rules (s : state) (line : string) : option state :=
  if endswith_qmark line then
    (* PRIORITY 1: the line ends with '?' *)
    s1 ← (if mode_is (current_mode s) "Answers" && truthy (current_text s)
          then save_current_item s else Some s);
    if mode_is (current_mode s1) "Questions" && truthy (current_text s1)
       && negb (previous_line_was_empty s1)
    then Some (State (results s1) (current_mode s1)
                     (current_text s1 +:+ " " +:+ line) false)
    else
      s2 ← save_current_item s1;
      Some (State (results s2) (Some "Questions") line false)
  else if re_match q_markers line then
    (* PRIORITY 2: question marker *)
    s1 ← save_current_item s;
    Some (State (results s1) (Some "Questions")
                (strip (re_sub_prefix q_markers line)) false)
  else if re_match a_markers line then
    (* PRIORITY 4: answer marker *)
    s1 ← save_current_item s;
    Some (State (results s1) (Some "Answers")
                (strip (re_sub_prefix a_markers line)) false)
  else if re_match subdivision line then
    (* subdivision: belongs to the current item *)
    Some (State (results s) (current_mode s)
                (extend (current_text s) line) false)
  else if previous_line_was_empty s && mode_is (current_mode s) "Questions"
          && truthy (current_text s) then
    (* PRIORITY 3: blank line between a question and new content *)
    s1 ← save_current_item s;
    Some (State (results s1) (Some "Answers") line false)
  else if mode_truthy (current_mode s) then
    (* regular continuation line *)
    Some (State (results s) (current_mode s)
                (extend (current_text s) line) false)
  else
    (* no mode set: default to question *)
    Some (State (results s) (Some "Questions") line false).

(** The cleaned form of a raw line: [line.strip()], then the removal of the
    characters outside the allowed set, then [strip()] again. *)
Definition clean (line : string) : string :=
  strip (remove_disallowed (strip line)).

(** Body of the loop over [lines]: blank lines set the flag, lines of one
    character are skipped, the others are cleaned and go through the rules. *)
Definition process_line (s : state) (line : string) : option state :=
  if negb (truthy (strip line)) then Some (set_blank s)
  else if (String.length (strip line) <? 2)%nat then Some s
  else if negb (truthy (clean line)) then Some (set_blank s)
  else apply_rules s (clean line).

Fixpoint process_lines (s : state) (lines : list string) : option state :=
  match lines with
  | [] => Some s
  | line :: lines' => s' ← process_line s line; process_lines s' lines'
  end.

(** Body of the loop over [image_list], given the text of the image: the
    lines of the text, then [save_current_item()]. *)
Definition process_image (s : state) (text : string) : option state :=
  s' ← process_lines s (split_lines text);
  save_current_item s'.

Fixpoint process_images (s : state) (texts : list string) : option state :=
  match texts with
  | [] => Some s
  | text :: texts' => s' ← process_image s text; process_images s' texts'
  end.

(** The loop over [image_list] on the texts the extraction stage returned,
    and the [results] dict it returns. *)
Definition separate_texts (texts : list string)
    : option (gmap string (list string)) :=
  s ← process_images initial_state texts;
  Some (results s).

(** [separate_qa_with_regex(image_list)], with the text extraction stage
    [source_pipeline] taken as a function from image paths to text. *)
Definition separate_qa_with_regex (source_pipeline : string -> string)
    (image_list : list string) : option (gmap string (list string)) :=
  separate_texts (map source_pipeline image_list).

(** The two output lists of a result dict. *)
Definition Questions (r : gmap string (list string)) : option (list string) :=
  r !! "Questions".
Definition Answers (r : gmap string (list string)) : option (list string) :=
  r !! "Answers".

(** The dict [{"Questions": qs, "Answers": ans}]. *)
Definition result_dict (qs ans : list string) : gmap string (list string) :=
  <["Questions" := qs]> (<["Answers" := ans]> ∅).

(** The text whose [split('\n')] is the given non-empty list of lines. *)
Fixpoint join_lines (lines : list string) : string :=
  match lines with
  | [] => ""
  | [l] => l
  | l :: ls => l +:+ String "010" (join_lines ls)
  end.

(** Sample states: an open question, an open answer, and a whitespace-only
    buffer in Answers mode after one finalized question. *)
Definition open_question : state :=
  State (result_dict [] []) (Some "Questions") "Name the parts" false.
Definition open_answer : state :=
  State (result_dict [] []) (Some "Answers") "It manages" true.
Definition blank_buffer : state :=
  State (result_dict ["Define OS"] []) (Some "Answers") "  " true.

(** ** Predicates of the statements *)

(** Both output lists exist and the mode is one of their keys or unset. *)
Definition well_formed (s : state) : Prop :=
  is_Some (Questions (results s)) /\ is_Some (Answers (results s)) /\
  (current_mode s = None \/ current_mode s = Some "Questions"
   \/ current_mode s = Some "Answers").

(** A finalized item: non-empty and unchanged by whitespace normalization. *)
Definition finalized (item : string) : Prop :=
  item <> "" /\ strip (collapse_ws item) = item.

(** [r'] is [r] with items appended to its two lists. *)
Definition grows (r r' : gmap string (list string)) : Prop :=
  exists qs ans : list string,
    Questions r' = (fun l => (l ++ qs)%list) <$> Questions r /\
    Answers r' = (fun l => (l ++ ans)%list) <$> Answers r /\
    Forall finalized (qs ++ ans)%list.

(** States the classifier can be in: after any number of lines, with the
    end-of-image [save_current_item()] at any point between them. *)
Inductive reachable : state -> Prop :=
  | reach_initial : reachable initial_state
  | reach_line s line s' :
      reachable s -> process_line s line = Some s' -> reachable s'
  | reach_save s s' :
      reachable s -> save_current_item s = Some s' -> reachable s'.

Fixpoint all_space (s : string) : bool :=
  match s with
  | EmptyString => true
  | String c s' => is_space c && all_space s'
  end.

Definition starts_space (s : string) : bool :=
  match s with EmptyString => false | String c _ => is_space c end.

(** Whitespace occurs only as single spaces. *)
Fixpoint tidy (s : string) : bool :=
  match s with
  | EmptyString => true
  | String c s' =>
      (if is_space c then Ascii.eqb c " " && negb (starts_space s') else true)
      && tidy s'
  end.

(** ** The rest of the program *)

(** [source_pipeline(image_path)]: [cv2.imread] gives [None] for a file it
    cannot read, and the function then returns [""] (after printing a
    message, which is not modelled); the preprocessing and the recognition
    of a loaded image are the external stage [recognize]. *)
Definition source_pipeline {image : Type} (imread : string -> option image)
    (recognize : image -> string) (image_path : string) : string :=
  match imread image_path with
  | None => ""
  | Some img => recognize img
  end.

(** ["="*70] and ["\n" + "="*70] *)
Definition rule : string := string_of_list_ascii (List.repeat "="%char 70).
Definition nl_rule : string := String "010" rule.

(** [str(i)] of a natural number: its decimal digits. *)
Definition str_of_nat (i : nat) : string :=
  NilEmpty.string_of_uint (Nat.to_uint i).

(** The lines [f"{i}. {q}"] of [enumerate(items, i)]. *)
Fixpoint numbered (i : nat) (items : list string) : list string :=
  match items with
  | [] => []
  | q :: items' => (str_of_nat i +:+ ". " +:+ q) :: numbered (S i) items'
  end.

(** What one section prints for its list. *)
Definition section_lines (none_detected : string) (items : list string)
    : list string :=
  match items with
  | [] => [none_detected]
  | _ => numbered 1 items
  end.

(** The outcome of [print_results]: the arguments of the [print] calls made,
    in order, and whether a subscript of [output] raised [KeyError]. *)
Inductive printed : Type :=
  | Printed (lines : list string)
  | KeyError (lines : list string) (key : string).

(** [print_results(output)] *)
Definition print_results (output : gmap string (list string)) : printed :=
  let head := [nl_rule; "QUESTIONS"; rule] in
  match output !! "Questions" with
  | None => KeyError head "Questions"
  | Some qs =>
      let upper :=
        (head ++ section_lines "No questions detected" qs
              ++ [nl_rule; "ANSWERS"; rule])%list in
      match output !! "Answers" with
      | None => KeyError upper "Answers"
      | Some ans =>
          Printed (upper ++ section_lines "No answers detected" ans
                         ++ [nl_rule])%list
      end
  end.

(** What the [print] calls write to standard output: each argument followed
    by a newline. *)
Fixpoint stdout (calls : list string) : string :=
  match calls with
  | [] => ""
  | a :: calls' => a +:+ String "010" (stdout calls')
  end.

(** The lines of that output: the pieces between newlines, without the
    empty remainder after the last newline. *)
Definition output_lines (calls : list string) : list string :=
  removelast (split_lines (stdout calls)).

(** A string with no newline in it. *)
Fixpoint one_line (s : string) : bool :=
  match s with
  | EmptyString => true
  | String c s' => negb (Ascii.eqb c "010") && one_line s'
  end.

(** ** Measures and relations of the further properties *)

(** A line that never reaches the rules: blank, one character, or nothing
    left after cleaning. *)
Definition silent (line : string) : bool :=
  negb (truthy (strip line)) || (String.length (strip line) <? 2)%nat
  || negb (truthy (clean line)).

(** Number of items in the two output lists. *)
Definition items_count (r : gmap string (list string)) : nat :=
  (List.length (default [] (Questions r))
   + List.length (default [] (Answers r)))%nat.

(** The items emitted so far, plus one for an open buffer. *)
Definition weight (s : state) : nat :=
  (items_count (results s) + if truthy (current_text s) then 1 else 0)%nat.

(** Number of lines of the texts that reach the rules. *)
Fixpoint loud_lines (lines : list string) : nat :=
  match lines with
  | [] => 0
  | line :: lines' =>
      ((if silent line then 0 else 1) + loud_lines lines')%nat
  end.

Fixpoint all_allowed (s : string) : bool :=
  match s with
  | EmptyString => true
  | String c s' => allowed c && all_allowed s'
  end.

(** The same state up to the blank flag, which may differ only while the
    buffer is empty. *)
Definition same_but_flag (s s' : state) : Prop :=
  results s = results s' /\ current_mode s = current_mode s' /\
  current_text s = current_text s' /\
  (current_text s = "" \/
   previous_line_was_empty s = previous_line_was_empty s').

(** Two outcomes that both raise or are the same state up to the flag. *)
Definition alike (o o' : option state) : Prop :=
  match o, o' with
  | Some s, Some s' => same_but_flag s s'
  | None, None => True
  | _, _ => False
  end.

(** A decimal digit. *)
Definition is_digit (c : ascii) : bool := between 48 57 c.

(** A well-spaced item: not empty, no whitespace at either end, and
    whitespace inside only as single spaces. *)
Definition well_spaced (item : string) : Prop :=
  item <> "" /\ strip item = item /\ tidy item = true.

(** * Properties *)

(** ** Strings *)

Lemma truthy_false (s : string) : truthy s = false <-> s = "".
Proof. destruct s; simpl; split; intros H; congruence. Qed.

Lemma truthy_true (s : string) : truthy s = true <-> s <> "".
Proof. destruct s; simpl; split; intros H; congruence. Qed.

Lemma rstrip_head (s : string) d r :
  rstrip s = String d r -> exists t, s = String d t.
Proof.
  destruct s as [|c s']; simpl; [discriminate|].
  destruct (rstrip s'); [destruct (is_space c)|]; intros H;
    inversion H; subst; eauto.
Qed.

Lemma rstrip_nonspace c s :
  is_space c = false -> rstrip (String c s) = String c (rstrip s).
Proof. intros H. simpl. rewrite H. destruct (rstrip s); reflexivity. Qed.

Lemma starts_space_collapse s : starts_space (collapse_from true s) = false.
Proof.
  induction s as [|c s IH]; simpl; [reflexivity|].
  destruct (is_space c) eqn:E; simpl; [exact IH | exact E].
Qed.

Lemma tidy_collapse b s : tidy (collapse_from b s) = true.
Proof.
  revert b; induction s as [|c s IH]; intros b; simpl; [reflexivity|].
  destruct (is_space c) eqn:E.
  - destruct b; [apply IH|]. simpl.
    rewrite starts_space_collapse, IH. reflexivity.
  - simpl. rewrite E, IH. reflexivity.
Qed.

Lemma tidy_tail c s : tidy (String c s) = true -> tidy s = true.
Proof. simpl. intros H. apply andb_prop in H. tauto. Qed.

Lemma tidy_lstrip s : tidy s = true -> tidy (lstrip s) = true.
Proof.
  induction s as [|c s IH]; intros H; [reflexivity|]. simpl.
  destruct (is_space c); [apply IH, (tidy_tail c), H | exact H].
Qed.

Lemma tidy_rstrip s : tidy s = true -> tidy (rstrip s) = true.
Proof.
  induction s as [|c s IH]; intros H; [reflexivity|].
  pose proof (IH (tidy_tail _ _ H)) as IH'. simpl in *.
  destruct (rstrip s) as [|d r] eqn:Er.
  - destruct (is_space c) eqn:E; simpl; [reflexivity|]. rewrite E. reflexivity.
  - destruct (rstrip_head _ _ _ Er) as [t ->].
    apply andb_prop in H as [Hc _].
    change (tidy (String c (String d r)))
      with ((if is_space c then Ascii.eqb c " " && negb (is_space d) else true)
            && tidy (String d r)).
    rewrite IH'. simpl in Hc. rewrite Hc. reflexivity.
Qed.

Lemma collapse_no_run s :
  starts_space s = false -> collapse_from true s = collapse_from false s.
Proof. destruct s as [|c s]; simpl; [reflexivity|]. intros ->. reflexivity. Qed.

Lemma collapse_tidy s : tidy s = true -> collapse_ws s = s.
Proof.
  unfold collapse_ws.
  induction s as [|c s IH]; intros H; [reflexivity|].
  pose proof (IH (tidy_tail _ _ H)) as IH'. simpl in *.
  apply andb_prop in H as [Hc _].
  destruct (is_space c).
  - apply andb_prop in Hc as [Hc Hs].
    apply Ascii.eqb_eq in Hc. apply negb_true_iff in Hs.
    rewrite (collapse_no_run _ Hs), IH'. subst c. reflexivity.
  - rewrite IH'. reflexivity.
Qed.

Lemma lstrip_id s : starts_space s = false -> lstrip s = s.
Proof. destruct s as [|c s]; simpl; [reflexivity|]. intros ->. reflexivity. Qed.

Lemma starts_space_lstrip s : starts_space (lstrip s) = false.
Proof.
  induction s as [|c s IH]; simpl; [reflexivity|].
  destruct (is_space c) eqn:E; [exact IH | exact E].
Qed.

Lemma starts_space_rstrip s :
  starts_space s = false -> starts_space (rstrip s) = false.
Proof.
  destruct s as [|c s]; simpl; [reflexivity|]. intros H.
  destruct (rstrip s); [rewrite H|]; simpl; auto.
Qed.

Lemma rstrip_idem s : rstrip (rstrip s) = rstrip s.
Proof.
  induction s as [|c s IH]; [reflexivity|]. simpl.
  destruct (rstrip s) as [|d r] eqn:Er.
  - destruct (is_space c) eqn:E; simpl; [reflexivity|]. rewrite E. reflexivity.
  - change (rstrip (String c (String d r)))
      with (match rstrip (String d r) with
            | EmptyString => if is_space c then EmptyString else String c EmptyString
            | r0 => String c r0
            end).
    rewrite IH. reflexivity.
Qed.

Lemma strip_idem s : strip (strip s) = strip s.
Proof.
  unfold strip.
  rewrite (lstrip_id (rstrip (lstrip s))).
  - apply rstrip_idem.
  - apply starts_space_rstrip, starts_space_lstrip.
Qed.

(** Whitespace normalization is idempotent. *)
Lemma normalize_idem s :
  strip (collapse_ws (strip (collapse_ws s))) = strip (collapse_ws s).
Proof.
  rewrite (collapse_tidy (strip (collapse_ws s))).
  - apply strip_idem.
  - apply tidy_rstrip, tidy_lstrip, tidy_collapse.
Qed.

Lemma lstrip_all_space b s :
  all_space s = true -> lstrip (collapse_from b s) = "".
Proof.
  revert b; induction s as [|c s IH]; intros b H; [reflexivity|].
  simpl in *. apply andb_prop in H as [Hc Hs]. rewrite Hc.
  destruct b; simpl; auto.
Qed.

Lemma normalize_all_space s :
  all_space s = true -> strip (collapse_ws s) = "".
Proof. intros H. unfold strip, collapse_ws. rewrite lstrip_all_space; auto. Qed.

(** ** Finalization *)

Lemma save_frame (s s' : state) :
  save_current_item s = Some s' ->
  current_mode s' = current_mode s /\ current_text s' = "" /\
  previous_line_was_empty s' = previous_line_was_empty s.
Proof.
  unfold save_current_item. intros H.
  destruct (truthy (current_text s) && mode_truthy (current_mode s));
    [destruct (truthy (strip (collapse_ws (current_text s))))|];
    try (injection H as <-; simpl; auto).
  destruct (current_mode s) as [k|]; simpl in H; [|discriminate].
  destruct (results s !! k); simpl in H; [|discriminate].
  injection H as <-. simpl. auto.
Qed.

Lemma save_unset (s : state) :
  current_mode s = None ->
  save_current_item s
  = Some (State (results s) None "" (previous_line_was_empty s)).
Proof.
  unfold save_current_item. intros ->. simpl.
  rewrite andb_false_r. reflexivity.
Qed.

Lemma save_empty (s : state) :
  current_text s = "" ->
  save_current_item s
  = Some (State (results s) (current_mode s) "" (previous_line_was_empty s)).
Proof. unfold save_current_item. intros ->. reflexivity. Qed.

Lemma grows_refl (r : gmap string (list string)) : grows r r.
Proof.
  exists [], []. unfold Questions, Answers.
  split; [|split]; [| |constructor];
    destruct (r !! _); simpl; rewrite ?app_nil_r; reflexivity.
Qed.

Lemma grows_trans (r1 r2 r3 : gmap string (list string)) :
  grows r1 r2 -> grows r2 r3 -> grows r1 r3.
Proof.
  intros (q1 & a1 & Hq1 & Ha1 & F1) (q2 & a2 & Hq2 & Ha2 & F2).
  exists (q1 ++ q2)%list, (a1 ++ a2)%list.
  rewrite Hq2, Ha2, Hq1, Ha1.
  split; [|split].
  - destruct (Questions r1); simpl; rewrite ?app_assoc; reflexivity.
  - destruct (Answers r1); simpl; rewrite ?app_assoc; reflexivity.
  - apply Forall_app in F1 as [? ?]. apply Forall_app in F2 as [? ?].
    repeat (apply Forall_app; split); assumption.
Qed.

Lemma well_formed_with (s : state) (m : option string) text flag :
  well_formed s ->
  m = None \/ m = Some "Questions" \/ m = Some "Answers" ->
  well_formed (State (results s) m text flag).
Proof. intros (Hq & Ha & _) Hm. repeat split; assumption. Qed.

Lemma finalized_normalize (text : string) :
  truthy (strip (collapse_ws text)) = true ->
  finalized (strip (collapse_ws text)).
Proof.
  intros H. split; [apply truthy_true, H | apply normalize_idem].
Qed.

(** Finalization never raises on a well-formed state, keeps it well formed
    and only appends finalized items. *)
Lemma save_grows (s : state) :
  well_formed s ->
  exists s', save_current_item s = Some s' /\ well_formed s' /\
             grows (results s) (results s').
Proof.
  intros Hwf. pose proof Hwf as ([q Hq] & [a Ha] & Hm).
  unfold save_current_item.
  destruct (truthy (current_text s) && mode_truthy (current_mode s)) eqn:E1;
    [destruct (truthy (strip (collapse_ws (current_text s)))) eqn:E2|];
    try (eexists; split; [reflexivity|]; split;
         [apply well_formed_with; assumption | apply grows_refl]).
  apply finalized_normalize in E2.
  unfold Questions, Answers in *.
  destruct Hm as [Hm|[Hm|Hm]]; rewrite Hm in *; simpl.
  - rewrite andb_false_r in E1. discriminate.
  - rewrite Hq. simpl. eexists; split; [reflexivity|]. split.
    + repeat split; simpl; unfold Questions, Answers;
        [rewrite lookup_insert_eq | rewrite lookup_insert_ne by done | ];
        eauto.
    + exists [strip (collapse_ws (current_text s))], []. simpl.
      unfold Questions, Answers.
      rewrite lookup_insert_eq, lookup_insert_ne, Hq, Ha by done. simpl.
      rewrite app_nil_r. repeat split. constructor; [assumption|constructor].
  - rewrite Ha. simpl. eexists; split; [reflexivity|]. split.
    + repeat split; simpl; unfold Questions, Answers;
        [rewrite lookup_insert_ne by done | rewrite lookup_insert_eq | ];
        eauto.
    + exists [], [strip (collapse_ws (current_text s))]. simpl.
      unfold Questions, Answers.
      rewrite lookup_insert_eq, lookup_insert_ne, Hq, Ha by done. simpl.
      rewrite app_nil_r. repeat split. constructor; [assumption|constructor].
Qed.

(** ** One line, one image, all images *)

Ltac settle :=
  eexists; split; [reflexivity|]; split;
  [ apply well_formed_with;
    [ eassumption
    | first [ match goal with
              | H : well_formed ?s |- current_mode ?s = None \/ _ => apply H
              end
            | auto ] ]
  | eauto using grows_refl, grows_trans ].

Lemma apply_rules_ok (s : state) (line : string) :
  well_formed s ->
  exists s', apply_rules s line = Some s' /\ well_formed s' /\
             grows (results s) (results s').
Proof.
  intros Hwf. unfold apply_rules.
  destruct (endswith_qmark line).
  { assert (exists s1,
      (if mode_is (current_mode s) "Answers" && truthy (current_text s)
       then save_current_item s else Some s) = Some s1 /\
      well_formed s1 /\ grows (results s) (results s1)) as (s1 & -> & Hwf1 & G1).
    { destruct (mode_is (current_mode s) "Answers" && truthy (current_text s)).
      - apply save_grows, Hwf.
      - exists s. auto using grows_refl. }
    simpl.
    destruct (mode_is (current_mode s1) "Questions" && truthy (current_text s1)
              && negb (previous_line_was_empty s1)).
    - settle.
    - destruct (save_grows s1 Hwf1) as (s2 & -> & Hwf2 & G2). simpl. settle. }
  destruct (re_match q_markers line).
  { destruct (save_grows s Hwf) as (s1 & -> & Hwf1 & G1). simpl. settle. }
  destruct (re_match a_markers line).
  { destruct (save_grows s Hwf) as (s1 & -> & Hwf1 & G1). simpl. settle. }
  destruct (re_match subdivision line); [settle|].
  destruct (previous_line_was_empty s && mode_is (current_mode s) "Questions"
            && truthy (current_text s)).
  { destruct (save_grows s Hwf) as (s1 & -> & Hwf1 & G1). simpl. settle. }
  destruct (mode_truthy (current_mode s)); settle.
Qed.

Lemma process_line_ok (s : state) (line : string) :
  well_formed s ->
  exists s', process_line s line = Some s' /\ well_formed s' /\
             grows (results s) (results s').
Proof.
  intros Hwf. unfold process_line, set_blank.
  destruct (negb (truthy (strip line))); [settle|].
  destruct (String.length (strip line) <? 2)%nat.
  { exists s. auto using grows_refl. }
  destruct (negb (truthy (clean line))); [settle|].
  apply apply_rules_ok, Hwf.
Qed.

Lemma process_lines_ok (lines : list string) (s : state) :
  well_formed s ->
  exists s', process_lines s lines = Some s' /\ well_formed s' /\
             grows (results s) (results s').
Proof.
  revert s. induction lines as [|line lines IH]; intros s Hwf; simpl.
  - exists s. auto using grows_refl.
  - destruct (process_line_ok s line Hwf) as (s1 & -> & Hwf1 & G1). simpl.
    destruct (IH s1 Hwf1) as (s2 & -> & Hwf2 & G2).
    exists s2. eauto using grows_trans.
Qed.

Lemma process_image_ok (s : state) (text : string) :
  well_formed s ->
  exists s', process_image s text = Some s' /\ well_formed s' /\
             grows (results s) (results s').
Proof.
  intros Hwf. unfold process_image.
  destruct (process_lines_ok (split_lines text) s Hwf) as (s1 & -> & Hwf1 & G1).
  simpl. destruct (save_grows s1 Hwf1) as (s2 & -> & Hwf2 & G2).
  exists s2. eauto using grows_trans.
Qed.

Lemma process_images_ok (texts : list string) (s : state) :
  well_formed s ->
  exists s', process_images s texts = Some s' /\ well_formed s' /\
             grows (results s) (results s').
Proof.
  revert s. induction texts as [|text texts IH]; intros s Hwf; simpl.
  - exists s. auto using grows_refl.
  - destruct (process_image_ok s text Hwf) as (s1 & -> & Hwf1 & G1). simpl.
    destruct (IH s1 Hwf1) as (s2 & -> & Hwf2 & G2).
    exists s2. eauto using grows_trans.
Qed.

Lemma initial_well_formed : well_formed initial_state.
Proof. repeat split; [eexists; reflexivity .. | left; reflexivity]. Qed.

Lemma reachable_well_formed (s : state) : reachable s -> well_formed s.
Proof.
  induction 1 as [|s line s' _ IH H|s s' _ IH H].
  - apply initial_well_formed.
  - destruct (process_line_ok s line IH) as (s1 & E & Hwf & _). congruence.
  - destruct (save_grows s IH) as (s1 & E & Hwf & _). congruence.
Qed.

(** ** The mode is set once and for all *)

Lemma apply_rules_unset (s s' : state) (line : string) :
  apply_rules s line = Some s' -> current_mode s' = None ->
  current_mode s = None /\ results s' = results s.
Proof.
  unfold apply_rules. intros H Hm.
  repeat match type of H with
  | (if ?c then _ else _) = _ => destruct c eqn:?
  | (save_current_item ?x ≫= _) = _ =>
      destruct (save_current_item x) as [?s|] eqn:?; simpl in H; [|discriminate]
  | ((if ?c then _ else _) ≫= _) = _ => destruct c eqn:?
  | (Some _ ≫= _) = _ => simpl in H
  end;
  injection H as <-; simpl in *; try discriminate; auto.
  match goal with
  | E : mode_is (current_mode ?x) _ && _ && _ = true |- _ =>
      rewrite Hm in E; discriminate E
  end.
Qed.

Lemma process_line_unset (s s' : state) (line : string) :
  process_line s line = Some s' -> current_mode s' = None ->
  current_mode s = None /\ results s' = results s.
Proof.
  unfold process_line, set_blank. intros H Hm.
  destruct (negb (truthy (strip line))).
  { injection H as <-. auto. }
  destruct (String.length (strip line) <? 2)%nat.
  { injection H as <-. auto. }
  destruct (negb (truthy (clean line))).
  { injection H as <-. auto. }
  eapply apply_rules_unset; eassumption.
Qed.

Lemma process_lines_unset (lines : list string) (s s' : state) :
  process_lines s lines = Some s' -> current_mode s' = None ->
  current_mode s = None /\ results s' = results s.
Proof.
  revert s. induction lines as [|line lines IH]; intros s H Hm; simpl in H.
  - injection H as <-. auto.
  - destruct (process_line s line) as [s1|] eqn:E; simpl in H; [|discriminate].
    destruct (IH s1 H Hm) as [Hm1 Hr1].
    destruct (process_line_unset s s1 line E Hm1) as [Hm0 Hr0].
    split; congruence.
Qed.

Lemma reachable_unset (s : state) :
  reachable s -> current_mode s = None -> results s = results initial_state.
Proof.
  induction 1 as [|s line s' _ IH H|s s' _ IH H]; intros Hm.
  - reflexivity.
  - destruct (process_line_unset s s' line H Hm) as [Hm0 ->]. auto.
  - destruct (save_frame s s' H) as (Hm0 & _ & _).
    rewrite (save_unset s) in H by congruence.
    injection H as <-. simpl. apply IH. congruence.
Qed.

Lemma process_line_cleaned (s : state) (raw : string) :
  (2 <= String.length (strip raw))%nat -> clean raw <> "" ->
  process_line s raw = apply_rules s (clean raw).
Proof.
  intros Hlen Hc. unfold process_line.
  assert (truthy (strip raw) = true) as ->
    by (destruct (strip raw); simpl in *; [lia | reflexivity]).
  simpl. destruct (Nat.ltb_spec (String.length (strip raw)) 2); [lia|].
  apply truthy_true in Hc. rewrite Hc. reflexivity.
Qed.

(** Finalizing a buffer that normalizes to a non-empty item appends that item
    to the list of the current mode. *)
Lemma save_emit (s : state) (k : string) (items : list string) :
  current_mode s = Some k -> truthy k = true ->
  results s !! k = Some items ->
  strip (collapse_ws (current_text s)) <> "" ->
  save_current_item s
  = Some (State (<[k := (items ++ [strip (collapse_ws (current_text s))])%list]>
                   (results s))
                (Some k) "" (previous_line_was_empty s)).
Proof.
  intros Hm Hk Hi Hn. unfold save_current_item.
  assert (truthy (current_text s) = true) as ->.
  { destruct (current_text s); [exfalso; apply Hn; reflexivity | reflexivity]. }
  apply truthy_true in Hn. rewrite Hn, Hm. simpl. rewrite Hk, Hi. reflexivity.
Qed.

(** * The claims *)

(** ** C1: the image boundary *)

(** C1, as stated, fails: the lines of image A, ["Q: Explain caching"], leave
    an open Questions buffer, and the only line of image B,
    ["in distributed systems"], is non-blank and matches no marker rule; yet
    the two images yield two items in Questions, not one. *)
Lemma C1_two_items_counterexample :
  (exists sA,
     process_lines initial_state (split_lines "Q: Explain caching") = Some sA /\
     current_mode sA = Some "Questions" /\
     current_text sA = "Explain caching") /\
  endswith_qmark (clean "in distributed systems") = false /\
  re_match q_markers (clean "in distributed systems") = false /\
  re_match a_markers (clean "in distributed systems") = false /\
  re_match subdivision (clean "in distributed systems") = false /\
  exists r,
    separate_texts ["Q: Explain caching"; "in distributed systems"] = Some r /\
    Questions r = Some ["Explain caching"; "in distributed systems"] /\
    Questions r <> Some ["Explain caching in distributed systems"].
Proof.
  split; [eexists; split; [vm_compute; reflexivity | split; reflexivity]|].
  repeat (split; [vm_compute; reflexivity|]).
  eexists. split; [vm_compute; reflexivity|].
  split; [vm_compute; reflexivity | vm_compute; discriminate].
Qed.

(** C1, amended: Mode and the blank flag persist across the image boundary,
    the buffer does not.  The end of image A finalizes the buffer (a
    Questions buffer that normalizes to a non-empty item is appended to
    Questions there) and leaves it empty, so in Questions mode the first
    line of image B that is non-blank and matches no marker rule starts a
    new buffer holding that line alone. *)
Theorem C1_buffer_closed_at_image_boundary
    (s : state) (textA lineB : string) :
  well_formed s ->
  (2 <= String.length (strip lineB))%nat ->
  clean lineB <> "" ->
  endswith_qmark (clean lineB) = false ->
  re_match q_markers (clean lineB) = false ->
  re_match a_markers (clean lineB) = false ->
  re_match subdivision (clean lineB) = false ->
  exists s1 sA,
    process_lines s (split_lines textA) = Some s1 /\
    process_image s textA = Some sA /\
    current_text sA = "" /\
    previous_line_was_empty sA = previous_line_was_empty s1 /\
    (current_mode s1 = Some "Questions" ->
     current_mode sA = Some "Questions" /\
     (forall q, Questions (results s1) = Some q ->
                strip (collapse_ws (current_text s1)) <> "" ->
                Questions (results sA)
                = Some (q ++ [strip (collapse_ws (current_text s1))])%list) /\
     process_line sA lineB
     = Some (State (results sA) (Some "Questions") (clean lineB) false)).
Proof.
  intros Hwf Hlen Hc Hq Hqm Ham Hsd.
  destruct (process_lines_ok (split_lines textA) s Hwf) as (s1 & E1 & Hwf1 & _).
  destruct (save_grows s1 Hwf1) as (sA & EA & HwfA & _).
  exists s1, sA. unfold process_image. rewrite E1. simpl.
  destruct (save_frame s1 sA EA) as (Hm & Ht & Hf).
  split; [reflexivity|]. repeat (split; [assumption|]).
  intros Hmode. split; [congruence|]. split.
  - intros q Hq1 Hn. unfold Questions in *.
    rewrite (save_emit s1 "Questions" q Hmode eq_refl Hq1 Hn) in EA.
    injection EA as <-. simpl. apply lookup_insert_eq.
  - rewrite process_line_cleaned by assumption.
    unfold apply_rules. rewrite Hq, Hqm, Ham, Hsd, Ht, Hm, Hmode.
    simpl. rewrite andb_false_r. reflexivity.
Qed.

Lemma C1_buffer_closed_witness :
  well_formed initial_state /\
  exists s1 sA,
    process_lines initial_state (split_lines "Q: Explain caching") = Some s1 /\
    process_image initial_state "Q: Explain caching" = Some sA /\
    current_text sA = "" /\
    previous_line_was_empty sA = previous_line_was_empty s1 /\
    (current_mode s1 = Some "Questions" ->
     current_mode sA = Some "Questions" /\
     (forall q, Questions (results s1) = Some q ->
                strip (collapse_ws (current_text s1)) <> "" ->
                Questions (results sA)
                = Some (q ++ [strip (collapse_ws (current_text s1))])%list) /\
     process_line sA "in distributed systems"
     = Some (State (results sA) (Some "Questions")
                   (clean "in distributed systems") false)).
Proof.
  split; [apply initial_well_formed|].
  apply (C1_buffer_closed_at_image_boundary initial_state
           "Q: Explain caching" "in distributed systems").
  - apply initial_well_formed.
  - vm_compute. lia.
  - vm_compute. discriminate.
  - vm_compute. reflexivity.
  - vm_compute. reflexivity.
  - vm_compute. reflexivity.
  - vm_compute. reflexivity.
Defined.

(** ** C2: a marked line that ends with a question mark *)

(** C2, as stated, fails: the line does not come out unchanged. *)
Lemma C2_plus_removed_counterexample :
  separate_texts ["Q.) What is 2+2?"]
  <> Some (result_dict ["Q.) What is 2+2?"] []).
Proof.
  intros H.
  apply (f_equal (fun o => r ← o; Questions r)) in H.
  vm_compute in H. discriminate H.
Qed.

(** C2, amended: for the single line ["Q.) What is 2+2?"] the cleaning step
    removes the [+]; the cleaned line both ends with [?] and starts with a
    question marker, the question-ending rule fires first, and the result
    has Questions equal to [["Q.) What is 22?"]], marker not stripped, and
    Answers empty. *)
Theorem C2_question_ending_rule_first :
  clean "Q.) What is 2+2?" = "Q.) What is 22?" /\
  endswith_qmark (clean "Q.) What is 2+2?") = true /\
  re_match q_markers (clean "Q.) What is 2+2?") = true /\
  separate_texts ["Q.) What is 2+2?"]
  = Some (result_dict ["Q.) What is 22?"] []).
Proof. repeat split; vm_compute; reflexivity. Qed.

(** ** C3: subdivision lines *)




(** ** C4: Mode and the buffer *)

(** C4, as stated, fails in both directions.  After the line
    ["(c) something"] Mode is None and the buffer is not empty; and after
    the line ["Q: Define OS"] and a finalization the buffer is empty and
    Mode is still Questions. *)
Lemma C4_mode_buffer_counterexample :
  ~ (forall s, reachable s -> current_mode s = None -> current_text s = "") /\
  ~ (forall s, reachable s -> current_text s = "" -> current_mode s = None) /\
  exists s s',
    reachable s /\ save_current_item s = Some s' /\
    current_text s' = "" /\ current_mode s' = Some "Questions".
Proof.
  assert (reachable (State (result_dict [] []) None "(c) something" false)) as R1.
  { apply (reach_line initial_state "(c) something"); [constructor|].
    vm_compute. reflexivity. }
  assert (reachable (State (result_dict [] []) (Some "Questions") "Define OS" false))
    as R2.
  { apply (reach_line initial_state "Q: Define OS"); [constructor|].
    vm_compute. reflexivity. }
  assert (save_current_item
            (State (result_dict [] []) (Some "Questions") "Define OS" false)
          = Some (State (result_dict ["Define OS"] []) (Some "Questions") "" false))
    as E by (vm_compute; reflexivity).
  split; [|split].
  - intros H. specialize (H _ R1 eq_refl). discriminate H.
  - intros H. specialize (H _ (reach_save _ _ R2 E) eq_refl). discriminate H.
  - eexists _, _. split; [exact R2|]. split; [exact E|]. split; reflexivity.
Qed.

(** C4, amended: in every reachable state finalization succeeds, empties the
    buffer and leaves Mode as it was; no line resets a Mode that is set; and
    while Mode is None both output lists are empty.  (So an empty buffer
    does not tell that Mode is None.) *)
Theorem C4_mode_set_once (s : state) :
  reachable s ->
  (exists s', save_current_item s = Some s' /\
              current_text s' = "" /\ current_mode s' = current_mode s) /\
  (forall line, exists s',
     process_line s line = Some s' /\
     (current_mode s <> None -> current_mode s' <> None)) /\
  (current_mode s = None ->
   Questions (results s) = Some [] /\ Answers (results s) = Some []).
Proof.
  intros R. pose proof (reachable_well_formed s R) as Hwf.
  split; [|split].
  - destruct (save_grows s Hwf) as (s' & E & _ & _).
    destruct (save_frame s s' E) as (Hm & Ht & _). eauto.
  - intros line.
    destruct (process_line_ok s line Hwf) as (s' & E & _ & _).
    exists s'. split; [exact E|]. intros Hm Hm'.
    apply Hm. eapply process_line_unset; eassumption.
  - intros Hm. rewrite (reachable_unset s R Hm). split; reflexivity.
Qed.

Lemma C4_mode_set_once_witness :
  reachable open_question /\
  current_mode open_question = Some "Questions" /\
  current_text open_question = "Name the parts" /\
  (exists s', save_current_item open_question = Some s' /\
              current_text s' = "" /\
              current_mode s' = Some "Questions") /\
  (forall line, exists s',
     process_line open_question line = Some s' /\
     (current_mode open_question <> None -> current_mode s' <> None)) /\
  (current_mode initial_state = None ->
   Questions (results initial_state) = Some [] /\
   Answers (results initial_state) = Some []).
Proof.
  assert (reachable open_question) as R.
  { apply (reach_line initial_state "Q: Name the parts"); [constructor|].
    vm_compute. reflexivity. }
  split; [exact R|]. split; [reflexivity|]. split; [reflexivity|].
  destruct (C4_mode_set_once open_question R) as (Hsave & Hline & _).
  destruct (C4_mode_set_once initial_state reach_initial) as (_ & _ & Hunset).
  split; [exact Hsave|]. split; [exact Hline | exact Hunset].
Defined.

(** ** C5: a subdivision line with no mode set *)

(** C5: with Mode None, a line that matches only the subdivision rule goes
    into the buffer (the buffer becomes the cleaned line, or the old buffer,
    a space and the cleaned line, and is not empty) and leaves Mode None and
    the output lists as they were; whatever lines follow, if Mode is still
    None when the buffer is finalized, finalization clears the buffer and
    appends nothing.  The single line ["(c) something"] yields two empty
    lists. *)
Theorem C5_unset_subdivision_dropped (s : state) (raw : string) :
  current_mode s = None ->
  (2 <= String.length (strip raw))%nat ->
  clean raw <> "" ->
  endswith_qmark (clean raw) = false ->
  re_match q_markers (clean raw) = false ->
  re_match a_markers (clean raw) = false ->
  re_match subdivision (clean raw) = true ->
  (exists s1,
     process_line s raw = Some s1 /\
     current_mode s1 = None /\
     current_text s1 <> "" /\
     (current_text s = "" -> current_text s1 = clean raw) /\
     (current_text s <> "" ->
      current_text s1 = current_text s +:+ " " +:+ clean raw) /\
     results s1 = results s /\
     forall lines s2,
       process_lines s1 lines = Some s2 -> current_mode s2 = None ->
       save_current_item s2
       = Some (State (results s) None "" (previous_line_was_empty s2))) /\
  clean "(c) something" = "(c) something" /\
  separate_texts ["(c) something"] = Some (result_dict [] []).
Proof.
  intros Hm Hlen Hc Hq Hqm Ham Hsd.
  split; [|split; vm_compute; reflexivity].
  rewrite process_line_cleaned by assumption.
  unfold apply_rules. rewrite Hq, Hqm, Ham, Hsd.
  eexists. split; [reflexivity|]. simpl.
  split; [exact Hm|]. unfold extend.
  split; [|split; [|split; [|split]]].
  - destruct (current_text s) as [|c t]; [exact Hc | discriminate].
  - intros ->. reflexivity.
  - intros Ht. apply truthy_true in Ht. rewrite Ht. reflexivity.
  - reflexivity.
  - intros lines s2 E Hm2.
    destruct (process_lines_unset lines _ s2 E Hm2) as [_ Hr]. simpl in Hr.
    rewrite (save_unset s2 Hm2), Hr. reflexivity.
Qed.

Lemma C5_unset_subdivision_witness :
  exists s1,
    process_line initial_state "(c) something" = Some s1 /\
    current_mode s1 = None /\
    current_text s1 = "(c) something" /\
    results s1 = results initial_state /\
    forall lines s2,
      process_lines s1 lines = Some s2 -> current_mode s2 = None ->
      save_current_item s2
      = Some (State (results initial_state) None ""
                    (previous_line_was_empty s2)).
Proof.
  destruct (C5_unset_subdivision_dropped initial_state "(c) something")
    as ((s1 & E & Hm & _ & Hnew & _ & Hr & Hdrop) & _).
  - reflexivity.
  - vm_compute. lia.
  - vm_compute. discriminate.
  - vm_compute. reflexivity.
  - vm_compute. reflexivity.
  - vm_compute. reflexivity.
  - vm_compute. reflexivity.
  - exists s1. repeat split; try assumption. apply (Hnew eq_refl).
Defined.

(** ** C6: the blank-line transition after a marked question *)

(** C6: on the lines ["Q.) Define OS"], [""], ["An operating system manages
    resources."] the question-marker pattern consumes ["Q."] only, so the
    question is finalized as [") Define OS"]; the blank line sets the flag
    and the third line becomes the answer. *)
Theorem C6_marker_residue :
  re_sub_prefix q_markers "Q.) Define OS" = ") Define OS" /\
  separate_texts
    [join_lines ["Q.) Define OS"; ""; "An operating system manages resources."]]
  = Some (result_dict [") Define OS"]
                      ["An operating system manages resources."]).
Proof. split; vm_compute; reflexivity. Qed.

(** ** C7: totality *)

(** C7: the classifier never raises.  For every extraction function and
    every list of images [separate_qa_with_regex] returns a dict that has
    both output lists, and from the initial state every sequence of lines is
    processed to a state. *)
Theorem C7_classifier_total
    (source_pipeline : string -> string) (image_list lines : list string) :
  (exists r,
     separate_qa_with_regex source_pipeline image_list = Some r /\
     is_Some (Questions r) /\ is_Some (Answers r)) /\
  (exists s, process_lines initial_state lines = Some s).
Proof.
  split.
  - unfold separate_qa_with_regex, separate_texts.
    destruct (process_images_ok (map source_pipeline image_list) initial_state
                initial_well_formed) as (s & -> & (Hq & Ha & _) & _).
    simpl. eauto.
  - destruct (process_lines_ok lines initial_state initial_well_formed)
      as (s & E & _). eauto.
Qed.

(** ** C8: the output lists only grow, by finalized items *)

(** C8: finalizing an empty or whitespace-only buffer changes neither output
    list; and every processed line, like every finalization, leaves both
    lists as they were with zero or more items appended, so their lengths do
    not decrease, and every appended item is non-empty and
    whitespace-normalized. *)
Theorem C8_append_only (s : state) (line : string) (q a : list string) :
  well_formed s ->
  Questions (results s) = Some q ->
  Answers (results s) = Some a ->
  (all_space (current_text s) = true ->
   save_current_item s
   = Some (State (results s) (current_mode s) ""
                 (previous_line_was_empty s))) /\
  (exists s' qs ans,
     process_line s line = Some s' /\
     Questions (results s') = Some (q ++ qs)%list /\
     Answers (results s') = Some (a ++ ans)%list /\
     (List.length q <= List.length (q ++ qs))%nat /\
     (List.length a <= List.length (a ++ ans))%nat /\
     Forall finalized (qs ++ ans)%list) /\
  (exists s' qs ans,
     save_current_item s = Some s' /\
     Questions (results s') = Some (q ++ qs)%list /\
     Answers (results s') = Some (a ++ ans)%list /\
     Forall finalized (qs ++ ans)%list).
Proof.
  intros Hwf Hq Ha. split; [|split].
  - intros Hsp. unfold save_current_item.
    rewrite (normalize_all_space _ Hsp). simpl.
    destruct (truthy (current_text s) && mode_truthy (current_mode s));
      reflexivity.
  - destruct (process_line_ok s line Hwf) as (s' & E & _ & qs & ans & Eq & Ea & F).
    exists s', qs, ans. rewrite Eq, Ea, Hq, Ha, !length_app. simpl.
    repeat split; auto; lia.
  - destruct (save_grows s Hwf) as (s' & E & _ & qs & ans & Eq & Ea & F).
    exists s', qs, ans. rewrite Eq, Ea, Hq, Ha. simpl. auto.
Qed.

Lemma C8_append_only_witness :
  save_current_item blank_buffer
  = Some (State (results blank_buffer) (Some "Answers") "" true) /\
  exists s' qs ans,
    process_line blank_buffer "Q: Define RAM" = Some s' /\
    Questions (results s') = Some (["Define OS"] ++ qs)%list /\
    Answers (results s') = Some ([] ++ ans)%list /\
    Forall finalized (qs ++ ans)%list.
Proof.
  destruct (C8_append_only blank_buffer "Q: Define RAM" ["Define OS"] [])
    as (Hsave & (s' & qs & ans & E & Eq & Ea & _ & _ & F) & _).
  - repeat split; [eexists; reflexivity .. | right; right; reflexivity].
  - vm_compute. reflexivity.
  - vm_compute. reflexivity.
  - split; [apply Hsave; reflexivity|]. exists s', qs, ans. auto.
Defined.

(** ** C9: an image with no text *)

(** C9, as stated, fails: zero lines leave the state alone, but the empty
    text is the one blank line [""], which sets the blank flag, and the end
    of the image finalizes an open buffer. *)
Lemma C9_empty_text_counterexample :
  process_lines initial_state [] = Some initial_state /\
  previous_line_was_empty initial_state = false /\
  process_image initial_state "" = Some (State (result_dict [] []) None "" true) /\
  process_image open_question ""
  = Some (State (result_dict ["Name the parts"] []) (Some "Questions") "" true).
Proof. repeat split; vm_compute; reflexivity. Qed.

(** C9, amended: an image whose extracted text is the empty string never
    raises and is processed as the single blank line [""] followed by the
    end-of-image finalization: the blank flag becomes true, Mode is
    unchanged, the buffer is finalized and left empty, the output lists only
    grow by what the finalization appends, and they are unchanged when the
    buffer was already empty. *)
Theorem C9_empty_text_is_one_blank_line (s : state) :
  well_formed s ->
  split_lines "" = [""] /\
  exists s',
    process_image s "" = Some s' /\
    save_current_item (set_blank s) = Some s' /\
    previous_line_was_empty s' = true /\
    current_mode s' = current_mode s /\
    current_text s' = "" /\
    grows (results s) (results s') /\
    (current_text s = "" -> results s' = results s).
Proof.
  intros Hwf. split; [reflexivity|].
  assert (well_formed (set_blank s)) as Hwf'.
  { unfold set_blank. apply well_formed_with; [assumption | apply Hwf]. }
  destruct (save_grows _ Hwf') as (s' & E & _ & G).
  destruct (save_frame _ _ E) as (Hm & Ht & Hf).
  exists s'. repeat (split; [assumption|]).
  intros Hempty. rewrite save_empty in E by exact Hempty.
  injection E as <-. reflexivity.
Qed.

Lemma C9_empty_text_witness :
  split_lines "" = [""] /\
  exists s',
    process_image open_question "" = Some s' /\
    save_current_item (set_blank open_question) = Some s' /\
    previous_line_was_empty s' = true /\
    current_mode s' = current_mode open_question /\
    current_text s' = "" /\
    grows (results open_question) (results s') /\
    (current_text open_question = "" -> results s' = results open_question).
Proof.
  apply (C9_empty_text_is_one_blank_line open_question).
  repeat split; [eexists; reflexivity .. | right; left; reflexivity].
Defined.

(** ** C10: lines of one character *)

(** C10: for every state, a line whose stripped form has length less than
    2, that is a line of one character such as ["-"] or ["?"] (a blank line
    is taken by the test before the length test), is discarded: Mode, the
    buffer, both output lists and the blank flag are left exactly as they
    were. *)
Theorem C10_short_line_discarded (s : state) (raw : string) :
  strip raw <> "" ->
  (String.length (strip raw) < 2)%nat ->
  process_line s raw = Some s.
Proof.
  intros Hne Hlen. unfold process_line.
  apply truthy_true in Hne. rewrite Hne. simpl.
  destruct (Nat.ltb_spec (String.length (strip raw)) 2); [reflexivity | lia].
Qed.

Lemma C10_short_line_witness :
  process_line open_answer " ?" = Some open_answer /\
  process_line open_answer "-" = Some open_answer.
Proof.
  split.
  - apply (C10_short_line_discarded open_answer " ?").
    + vm_compute. discriminate.
    + vm_compute. lia.
  - apply (C10_short_line_discarded open_answer "-").
    + vm_compute. discriminate.
    + vm_compute. lia.
Defined.

(** * Further properties *)

(** ** Finalization *)

Lemma save_again (s s' : state) :
  save_current_item s = Some s' -> save_current_item s' = Some s'.
Proof.
  intros E. destruct (save_frame s s' E) as (_ & Ht & _).
  rewrite (save_empty s' Ht). destruct s'; simpl in *. subst. reflexivity.
Qed.

(** X1: finalization is idempotent: finalizing twice in a row is the same
    as finalizing once, whatever the state (also when it raises). *)
Theorem X1_save_idempotent (s : state) :
  save_current_item s ≫= save_current_item = save_current_item s.
Proof.
  destruct (save_current_item s) as [s'|] eqn:E; simpl; [|reflexivity].
  apply (save_again s s' E).
Qed.

(** Finalization files the buffer under the current mode only. *)
Lemma save_other_key (s s' : state) (k : string) :
  save_current_item s = Some s' -> current_mode s <> Some k ->
  results s' !! k = results s !! k.
Proof.
  unfold save_current_item. intros H Hk.
  destruct (truthy (current_text s) && mode_truthy (current_mode s));
    [destruct (truthy (strip (collapse_ws (current_text s))))|];
    try (injection H as <-; reflexivity).
  destruct (current_mode s) as [m|]; simpl in H; [|discriminate].
  destruct (results s !! m); simpl in H; [|discriminate].
  injection H as <-. simpl. apply lookup_insert_ne. congruence.
Qed.

Lemma save_dom (s s' : state) :
  save_current_item s = Some s' -> dom (results s') = dom (results s).
Proof.
  unfold save_current_item. intros H.
  destruct (truthy (current_text s) && mode_truthy (current_mode s));
    [destruct (truthy (strip (collapse_ws (current_text s))))|];
    try (injection H as <-; reflexivity).
  destruct (current_mode s) as [m|]; simpl in H; [|discriminate].
  destruct (results s !! m) eqn:E; simpl in H; [|discriminate].
  injection H as <-. simpl. rewrite dom_insert_L.
  assert (m ∈ dom (results s)) as Hin by (apply elem_of_dom; eauto).
  apply subseteq_union_1_L, singleton_subseteq_l, Hin.
Qed.

(** The results after a line are those before it or those of one
    finalization of the state before it. *)
Lemma apply_rules_results (s s' : state) (line : string) :
  apply_rules s line = Some s' ->
  results s' = results s \/
  exists s1, save_current_item s = Some s1 /\ results s' = results s1.
Proof.
  unfold apply_rules. intros H.
  repeat match type of H with
  | (if ?c then _ else _) = _ => destruct c eqn:?
  | (save_current_item ?x ≫= _) = _ =>
      let E := fresh "E" in
      destruct (save_current_item x) as [?s|] eqn:E; simpl in H; [|discriminate]
  | ((if ?c then _ else _) ≫= _) = _ => destruct c eqn:?
  | (Some _ ≫= _) = _ => simpl in H
  end;
  injection H as <-; simpl; eauto.
  right. eexists. split; [reflexivity|].
  match goal with
  | E1 : save_current_item s = Some ?a, E2 : save_current_item ?a = Some ?b
    |- _ => rewrite (save_again s a E1) in E2; injection E2 as <-
  end.
  reflexivity.
Qed.

Lemma process_line_results (s s' : state) (line : string) :
  process_line s line = Some s' ->
  results s' = results s \/
  exists s1, save_current_item s = Some s1 /\ results s' = results s1.
Proof.
  unfold process_line, set_blank. intros H.
  destruct (negb (truthy (strip line))); [injection H as <-; auto|].
  destruct (String.length (strip line) <? 2)%nat; [injection H as <-; auto|].
  destruct (negb (truthy (clean line))); [injection H as <-; auto|].
  eapply apply_rules_results, H.
Qed.

(** A property of [results] that finalization keeps is kept by the whole
    loop. *)
Lemma results_invariant (P : gmap string (list string) -> Prop) :
  (forall s s', save_current_item s = Some s' ->
                P (results s) -> P (results s')) ->
  forall texts s s',
    process_images s texts = Some s' -> P (results s) -> P (results s').
Proof.
  intros Hsave.
  assert (forall lines s s',
            process_lines s lines = Some s' -> P (results s) -> P (results s'))
    as Hlines.
  { induction lines as [|line lines IH]; intros s s' H HP; simpl in H.
    - injection H as <-. exact HP.
    - destruct (process_line s line) as [s1|] eqn:E; simpl in H; [|discriminate].
      apply (IH s1 s' H).
      destruct (process_line_results s s1 line E) as [->|(s2 & E2 & ->)];
        eauto. }
  induction texts as [|text texts IH]; intros s s' H HP; simpl in H.
  - injection H as <-. exact HP.
  - destruct (process_image s text) as [s1|] eqn:E; simpl in H; [|discriminate].
    apply (IH s1 s' H). unfold process_image in E.
    destruct (process_lines s (split_lines text)) as [s2|] eqn:E2;
      simpl in E; [|discriminate].
    eauto.
Qed.

(** ** The returned dict *)

(** X2: the dict that [separate_qa_with_regex] returns has the keys
    ["Questions"] and ["Answers"] and no other. *)
Theorem X2_result_keys
    (pipeline : string -> string) (image_list : list string) :
  exists r,
    separate_qa_with_regex pipeline image_list = Some r /\
    dom r = ({["Questions"; "Answers"]} : gset string).
Proof.
  unfold separate_qa_with_regex, separate_texts.
  destruct (process_images_ok (map pipeline image_list) initial_state
              initial_well_formed) as (s & E & _).
  rewrite E. simpl. exists (results s). split; [reflexivity|].
  apply (results_invariant
           (fun r => dom r = ({["Questions"; "Answers"]} : gset string)))
    with (texts := map pipeline image_list) (s := initial_state).
  - intros s0 s1 H0 H1. simpl in *. rewrite (save_dom s0 s1 H0). exact H1.
  - exact E.
  - simpl. rewrite !dom_insert_L, dom_empty_L. set_solver.
Qed.

Lemma finalized_well_spaced (item : string) :
  finalized item -> well_spaced item.
Proof.
  intros [Hne Hfix]. repeat split; [exact Hne| |].
  - rewrite <- Hfix. apply strip_idem.
  - rewrite <- Hfix. apply tidy_rstrip, tidy_lstrip, tidy_collapse.
Qed.

(** X3: every item that [separate_qa_with_regex] returns, question or
    answer, is non-empty, has no whitespace at either end and contains
    whitespace only as single spaces. *)
Theorem X3_items_well_spaced
    (pipeline : string -> string) (image_list : list string) :
  exists r qs ans,
    separate_qa_with_regex pipeline image_list = Some r /\
    Questions r = Some qs /\ Answers r = Some ans /\
    Forall well_spaced qs /\ Forall well_spaced ans.
Proof.
  unfold separate_qa_with_regex, separate_texts.
  destruct (process_images_ok (map pipeline image_list) initial_state
              initial_well_formed) as (s & -> & _ & qs & ans & Eq & Ea & F).
  simpl. exists (results s), qs, ans.
  apply Forall_app in F as [Fq Fa].
  repeat split; try assumption.
  - eapply Forall_impl; [exact Fq | apply finalized_well_spaced].
  - eapply Forall_impl; [exact Fa | apply finalized_well_spaced].
Qed.

(** ** No more items than lines *)

Lemma items_count_lists (r : gmap string (list string)) (qs ans : list string) :
  Questions r = Some qs -> Answers r = Some ans ->
  items_count r = (List.length qs + List.length ans)%nat.
Proof. unfold items_count. intros -> ->. reflexivity. Qed.

(** Finalization turns an open buffer into at most one item. *)
Lemma save_weight (s s' : state) :
  well_formed s -> save_current_item s = Some s' ->
  (weight s' <= weight s)%nat /\ weight s' = items_count (results s').
Proof.
  intros ([q Hq] & [a Ha] & Hm) H.
  destruct (save_frame s s' H) as (_ & Ht & _).
  assert (weight s' = items_count (results s')) as Hw
    by (unfold weight; rewrite Ht; simpl; lia).
  split; [|exact Hw]. rewrite Hw. clear Hw Ht.
  unfold save_current_item in H. unfold weight.
  destruct (truthy (current_text s)) eqn:E1; simpl in H;
    [|injection H as <-; simpl; lia].
  destruct (mode_truthy (current_mode s)); [|injection H as <-; simpl; lia].
  destruct (truthy (strip (collapse_ws (current_text s))));
    [|injection H as <-; simpl; lia].
  pose proof Hq as Hq'. pose proof Ha as Ha'. unfold Questions, Answers in Hq', Ha'.
  destruct Hm as [Hm|[Hm|Hm]]; rewrite Hm in H; simpl in H; [discriminate| |].
  - rewrite Hq' in H. simpl in H. injection H as <-. simpl.
    rewrite (items_count_lists _ q a Hq Ha).
    rewrite (items_count_lists _ (q ++ [strip (collapse_ws (current_text s))]) a).
    + rewrite length_app. simpl. lia.
    + apply lookup_insert_eq.
    + unfold Answers. rewrite lookup_insert_ne by done. exact Ha'.
  - rewrite Ha' in H. simpl in H. injection H as <-. simpl.
    rewrite (items_count_lists _ q a Hq Ha).
    rewrite (items_count_lists _ q (a ++ [strip (collapse_ws (current_text s))])).
    + rewrite length_app. simpl. lia.
    + unfold Questions. rewrite lookup_insert_ne by done. exact Hq'.
    + apply lookup_insert_eq.
Qed.

Lemma weight_bound (s : state) :
  (items_count (results s) <= weight s <= items_count (results s) + 1)%nat.
Proof. unfold weight. destruct (truthy (current_text s)); lia. Qed.

Lemma apply_rules_weight (s s' : state) (line : string) :
  well_formed s -> apply_rules s line = Some s' ->
  (weight s' <= weight s + 1)%nat.
Proof.
  intros Hwf H.
  pose proof (weight_bound s'). pose proof (weight_bound s).
  destruct (apply_rules_results s s' line H) as [E|(s1 & E1 & E)]; rewrite E in *.
  - lia.
  - destruct (save_weight s s1 Hwf E1) as [? ?]. lia.
Qed.

Lemma process_line_weight (s s' : state) (line : string) :
  well_formed s -> process_line s line = Some s' ->
  (weight s' <= weight s + if silent line then 0 else 1)%nat.
Proof.
  intros Hwf. unfold process_line, silent, set_blank.
  destruct (negb (truthy (strip line))); simpl.
  { intros H. injection H as <-. unfold weight. simpl. lia. }
  destruct (String.length (strip line) <? 2)%nat; simpl.
  { intros H. injection H as <-. lia. }
  destruct (negb (truthy (clean line))); simpl.
  { intros H. injection H as <-. unfold weight. simpl. lia. }
  apply apply_rules_weight, Hwf.
Qed.

Lemma process_lines_weight (lines : list string) (s s' : state) :
  well_formed s -> process_lines s lines = Some s' ->
  (weight s' <= weight s + loud_lines lines)%nat.
Proof.
  revert s. induction lines as [|line lines IH]; intros s Hwf H; simpl in *.
  - injection H as <-. lia.
  - destruct (process_line_ok s line Hwf) as (s1 & E & Hwf1 & _).
    rewrite E in H. simpl in H.
    pose proof (process_line_weight s s1 line Hwf E).
    pose proof (IH s1 Hwf1 H). lia.
Qed.

Lemma loud_lines_app (l1 l2 : list string) :
  loud_lines (l1 ++ l2) = (loud_lines l1 + loud_lines l2)%nat.
Proof. induction l1 as [|x l1 IH]; simpl; [reflexivity | rewrite IH; lia]. Qed.

Lemma loud_lines_length (lines : list string) :
  (loud_lines lines <= List.length lines)%nat.
Proof.
  induction lines as [|x lines IH]; simpl; [lia|]. destruct (silent x); lia.
Qed.

Lemma process_images_weight (texts : list string) (s s' : state) :
  well_formed s -> process_images s texts = Some s' ->
  (weight s' <= weight s + loud_lines (flat_map split_lines texts))%nat.
Proof.
  revert s. induction texts as [|text texts IH]; intros s Hwf H; simpl in *.
  - injection H as <-. lia.
  - destruct (process_image_ok s text Hwf) as (s1 & E & Hwf1 & _).
    rewrite E in H. simpl in H. unfold process_image in E.
    destruct (process_lines_ok (split_lines text) s Hwf) as (s2 & E2 & Hwf2 & _).
    rewrite E2 in E. simpl in E.
    pose proof (process_lines_weight _ s s2 Hwf E2).
    destruct (save_weight s2 s1 Hwf2 E) as [? _].
    pose proof (IH s1 Hwf1 H). rewrite loud_lines_app. lia.
Qed.

(** X4: [separate_qa_with_regex] never returns more items, questions and
    answers together, than the extracted texts have lines that reach the
    rules (lines that are not blank, not one character long and not empty
    after cleaning), so never more than they have lines. *)
Theorem X4_items_bounded_by_lines
    (pipeline : string -> string) (image_list : list string) :
  exists r qs ans,
    separate_qa_with_regex pipeline image_list = Some r /\
    Questions r = Some qs /\ Answers r = Some ans /\
    (List.length qs + List.length ans
     <= loud_lines (flat_map split_lines (map pipeline image_list))
     <= List.length (flat_map split_lines (map pipeline image_list)))%nat.
Proof.
  unfold separate_qa_with_regex, separate_texts.
  destruct (process_images_ok (map pipeline image_list) initial_state
              initial_well_formed) as (s & E & ([qs Hq] & [ans Ha] & _) & _).
  rewrite E. simpl. exists (results s), qs, ans.
  repeat split; try assumption; [|apply loud_lines_length].
  pose proof (process_images_weight _ _ _ initial_well_formed E) as H.
  pose proof (weight_bound s) as [Hb _].
  rewrite (items_count_lists _ qs ans Hq Ha) in Hb.
  change (weight initial_state) with 0%nat in H. lia.
Qed.

(** ** Texts with nothing to classify *)

Lemma process_line_silent (s : state) (line : string) :
  silent line = true ->
  exists flag,
    process_line s line
    = Some (State (results s) (current_mode s) (current_text s) flag).
Proof.
  unfold process_line, silent, set_blank.
  destruct (negb (truthy (strip line))); simpl; [eauto|].
  destruct (String.length (strip line) <? 2)%nat; simpl.
  { intros _. exists (previous_line_was_empty s). destruct s; reflexivity. }
  intros ->. eauto.
Qed.

Lemma process_lines_silent (lines : list string) (s : state) :
  forallb silent lines = true ->
  exists flag,
    process_lines s lines
    = Some (State (results s) (current_mode s) (current_text s) flag).
Proof.
  revert s. induction lines as [|line lines IH]; intros s H; simpl in *.
  - exists (previous_line_was_empty s). destruct s; reflexivity.
  - apply andb_prop in H as [H1 H2].
    destruct (process_line_silent s line H1) as [f ->]. simpl.
    destruct (IH (State (results s) (current_mode s) (current_text s) f) H2)
      as [f' ->].
    eauto.
Qed.

Lemma process_images_silent (texts : list string) (s : state) :
  Forall (fun text => forallb silent (split_lines text) = true) texts ->
  current_mode s = None ->
  exists text flag,
    process_images s texts = Some (State (results s) None text flag).
Proof.
  revert s. induction texts as [|text texts IH]; intros s H Hm; simpl.
  - exists (current_text s), (previous_line_was_empty s).
    destruct s; simpl in *; subst; reflexivity.
  - apply Forall_cons in H as [H1 H2]. unfold process_image.
    destruct (process_lines_silent _ s H1) as [f ->]. simpl.
    rewrite save_unset by exact Hm. simpl.
    destruct (IH (State (results s) None "" f) H2 eq_refl) as (t & f' & ->).
    eauto.
Qed.

(** X5: when every line of every extracted text is blank, one character
    long or empty after cleaning (in particular when every text is [""]),
    [separate_qa_with_regex] returns two empty lists. *)
Theorem X5_nothing_to_classify
    (pipeline : string -> string) (image_list : list string) :
  Forall (fun img => forallb silent (split_lines (pipeline img)) = true)
         image_list ->
  separate_qa_with_regex pipeline image_list = Some (result_dict [] []).
Proof.
  intros H. unfold separate_qa_with_regex, separate_texts.
  destruct (process_images_silent (map pipeline image_list) initial_state)
    as (t & f & ->); [|reflexivity|reflexivity].
  apply Forall_map. exact H.
Qed.

Lemma X5_nothing_to_classify_witness :
  separate_qa_with_regex
    (fun img => if String.eqb img "blank.jpeg" then "" else String "010" " - ")
    ["blank.jpeg"; "noise.jpeg"]
  = Some (result_dict [] []).
Proof.
  apply X5_nothing_to_classify.
  repeat constructor.
Defined.

(** ** The blank flag *)

Lemma apply_rules_flag (s s' : state) (line : string) :
  apply_rules s line = Some s' -> previous_line_was_empty s' = false.
Proof.
  unfold apply_rules. intros H.
  repeat match type of H with
  | (if ?c then _ else _) = _ => destruct c
  | (save_current_item ?x ≫= _) = _ =>
      destruct (save_current_item x) as [?s|]; simpl in H; [|discriminate]
  | ((if ?c then _ else _) ≫= _) = _ => destruct c
  | (Some _ ≫= _) = _ => simpl in H
  end;
  injection H as <-; reflexivity.
Qed.

(** X6: what the blank flag records.  After a line, the flag is true when
    the line was blank or empty after cleaning, unchanged when the line was
    one character long, and false when the line went through the rules,
    whichever rule fired. *)
Theorem X6_blank_flag (s : state) (line : string) :
  well_formed s ->
  exists s',
    process_line s line = Some s' /\
    previous_line_was_empty s'
    = if negb (truthy (strip line)) then true
      else if (String.length (strip line) <? 2)%nat
           then previous_line_was_empty s
           else negb (truthy (clean line)).
Proof.
  intros Hwf. destruct (process_line_ok s line Hwf) as (s' & E & _).
  exists s'. split; [exact E|]. revert E. unfold process_line, set_blank.
  destruct (negb (truthy (strip line))); [intros H; injection H as <-; reflexivity|].
  destruct (String.length (strip line) <? 2)%nat;
    [intros H; injection H as <-; reflexivity|].
  destruct (negb (truthy (clean line))); [intros H; injection H as <-; reflexivity|].
  apply apply_rules_flag.
Qed.

Lemma X6_blank_flag_witness :
  exists s',
    process_line open_answer "and schedules" = Some s' /\
    previous_line_was_empty s' = false.
Proof.
  destruct (X6_blank_flag open_answer "and schedules") as (s' & E & F).
  - repeat split; [eexists; reflexivity .. | right; right; reflexivity].
  - exists s'. split; [exact E | exact F].
Defined.

(** ** Lines that end with a question mark *)

(** X7: a line whose cleaned form ends with [?] always ends up in a
    Questions buffer, whatever the state: afterwards Mode is Questions and
    the flag is clear.  When a non-empty Questions buffer is open and no
    blank line came before, the line is appended to that buffer and the
    output lists are untouched; in every other case the state is finalized
    (an open Answers buffer goes to Answers) and the buffer is the line
    alone. *)
Theorem X7_question_mark_line (s : state) (raw : string) :
  well_formed s ->
  (2 <= String.length (strip raw))%nat ->
  endswith_qmark (clean raw) = true ->
  exists s',
    process_line s raw = Some s' /\
    current_mode s' = Some "Questions" /\
    previous_line_was_empty s' = false /\
    (current_mode s = Some "Questions" /\ current_text s <> "" /\
     previous_line_was_empty s = false ->
     current_text s' = current_text s +:+ " " +:+ clean raw /\
     results s' = results s) /\
    (~ (current_mode s = Some "Questions" /\ current_text s <> "" /\
        previous_line_was_empty s = false) ->
     current_text s' = clean raw /\
     exists s1, save_current_item s = Some s1 /\ results s' = results s1).
Proof.
  intros Hwf Hlen Hq.
  assert (clean raw <> "") as Hc by (intros E; rewrite E in Hq; discriminate).
  rewrite process_line_cleaned by assumption.
  unfold apply_rules. rewrite Hq.
  destruct (save_grows s Hwf) as (s1 & E1 & Hwf1 & _).
  destruct (mode_is (current_mode s) "Answers" && truthy (current_text s)) eqn:EA.
  - assert (current_mode s <> Some "Questions") as Hno.
    { intros Hmode. rewrite Hmode in EA. discriminate EA. }
    destruct (save_frame s s1 E1) as (Hm & Ht & _).
    pose proof (save_again s s1 E1) as E2.
    exists (State (results s1) (Some "Questions") (clean raw) false).
    split.
    { rewrite E1. simpl. rewrite Ht. simpl. rewrite andb_false_r. simpl.
      rewrite E2. reflexivity. }
    simpl. split; [reflexivity|]. split; [reflexivity|]. split.
    + intros (Hmode & _). contradiction.
    + intros _. split; [reflexivity|]. exists s1. auto.
  - simpl.
    destruct (mode_is (current_mode s) "Questions" && truthy (current_text s)
              && negb (previous_line_was_empty s)) eqn:EQ.
    + apply andb_prop in EQ as [EQ Hf]. apply andb_prop in EQ as [Hm Ht].
      apply negb_true_iff in Hf. apply truthy_true in Ht.
      unfold mode_is in Hm. destruct (current_mode s) as [m|] eqn:Em;
        [|discriminate].
      apply String.eqb_eq in Hm. subst m.
      eexists. split; [reflexivity|]. simpl.
      split; [reflexivity|]. split; [reflexivity|]. split.
      * intros _. split; reflexivity.
      * intros Hno. exfalso. apply Hno. auto.
    + exists (State (results s1) (Some "Questions") (clean raw) false).
      split; [rewrite E1; reflexivity|]. simpl.
      split; [reflexivity|]. split; [reflexivity|]. split.
      * intros (Hmode & Ht & Hf). exfalso.
        apply truthy_true in Ht. rewrite Hmode, Ht, Hf in EQ. discriminate EQ.
      * intros _. split; [reflexivity|]. exists s1. auto.
Qed.

Lemma X7_question_mark_line_witness :
  (exists s',
     process_line open_question "of a root?" = Some s' /\
     current_mode s' = Some "Questions" /\
     current_text s' = "Name the parts of a root?" /\
     results s' = results open_question) /\
  (exists s',
     process_line open_answer "What is a root?" = Some s' /\
     current_mode s' = Some "Questions" /\
     current_text s' = "What is a root?" /\
     Answers (results s') = Some ["It manages"]).
Proof.
  split.
  - destruct (X7_question_mark_line open_question "of a root?")
      as (s' & E & Hm & _ & Happ & _).
    + repeat split; [eexists; reflexivity .. | right; left; reflexivity].
    + vm_compute. lia.
    + vm_compute. reflexivity.
    + assert (current_text open_question <> "") as Hopen by discriminate.
      destruct (Happ (conj eq_refl (conj Hopen eq_refl))) as [Ht Hr].
      exists s'. repeat split; assumption.
  - destruct (X7_question_mark_line open_answer "What is a root?")
      as (s' & E & Hm & _ & _ & Hnew).
    + repeat split; [eexists; reflexivity .. | right; right; reflexivity].
    + vm_compute. lia.
    + vm_compute. reflexivity.
    + assert (~ (current_mode open_answer = Some "Questions" /\
                 current_text open_answer <> "" /\
                 previous_line_was_empty open_answer = false)) as Hno
        by (intros (Hmode & _); discriminate Hmode).
      destruct (Hnew Hno) as (Ht & s1 & E1 & Hr).
      exists s'. repeat split; try assumption.
      rewrite Hr. vm_compute in E1. injection E1 as <-. reflexivity.
Defined.

(** ** Which list an item goes to *)

(** X8: a line can change only the list of the mode in force when it
    arrives: with Mode Questions the Answers list is left as it was, with
    Mode Answers the Questions list is, and with no mode set neither
    changes. *)
Theorem X8_item_goes_to_current_mode (s s' : state) (line k : string) :
  process_line s line = Some s' ->
  current_mode s <> Some k ->
  results s' !! k = results s !! k.
Proof.
  intros H Hk.
  destruct (process_line_results s s' line H) as [->|(s1 & E1 & ->)];
    [reflexivity|].
  eapply save_other_key; eassumption.
Qed.

Lemma X8_item_goes_to_current_mode_witness :
  exists s',
    process_line open_question "A: root cap" = Some s' /\
    Answers (results s') = Answers (results open_question) /\
    Questions (results s') = Some ["Name the parts"].
Proof.
  eexists. split; [vm_compute; reflexivity|]. split.
  - apply (X8_item_goes_to_current_mode open_question _ "A: root cap" "Answers").
    + vm_compute. reflexivity.
    + discriminate.
  - vm_compute. reflexivity.
Defined.

(** ** The marker patterns *)

Lemma star_rest (s : string) : star_k is_space s Some = Some (lstrip s).
Proof.
  induction s as [|c s IH]; simpl; [reflexivity|].
  destruct (is_space c); [rewrite IH|]; reflexivity.
Qed.

Lemma q_markers_rest (line : string) :
  re_match_rest q_markers line
  = match line with
    | String c (String p rest) =>
        if in_class_ic "QqBb" c && in_class ".):-" p
        then Some (lstrip rest) else None
    | _ => None
    end.
Proof.
  unfold re_match_rest, q_markers, ws_star. cbn [cat_all match_k].
  destruct line as [|c [|p rest]]; [reflexivity| |].
  - destruct (in_class_ic "QqBb" c); reflexivity.
  - destruct (in_class_ic "QqBb" c), (in_class ".):-" p); cbn [andb];
      rewrite ?star_rest; reflexivity.
Qed.

(** X9: the question-marker pattern matches exactly the lines whose first
    character is one of [Q q B b] and whose second is one of [. ) : -], and
    removing the marker removes these two characters and the whitespace
    after them, nothing more: of ["Q.)"] the [)] stays. *)
Theorem X9_question_marker (c p : ascii) (rest : string) :
  re_match q_markers (String c (String p rest))
  = in_class_ic "QqBb" c && in_class ".):-" p /\
  (re_match q_markers (String c (String p rest)) = true ->
   re_sub_prefix q_markers (String c (String p rest)) = lstrip rest) /\
  re_match q_markers (String c EmptyString) = false /\
  re_match q_markers EmptyString = false.
Proof.
  unfold re_match, re_sub_prefix. rewrite !q_markers_rest.
  destruct (in_class_ic "QqBb" c && in_class ".):-" p); repeat split;
    intros; try reflexivity; discriminate.
Qed.

Lemma X9_question_marker_witness :
  re_match q_markers "Q.) Define OS" = true /\
  re_sub_prefix q_markers "Q.) Define OS" = lstrip ") Define OS".
Proof.
  destruct (X9_question_marker "Q" "." ") Define OS") as (E & H & _).
  split; [vm_compute; reflexivity|]. apply H. vm_compute. reflexivity.
Defined.

Lemma class_a_not_q (c : ascii) :
  in_class_ic "Aa" c = true -> in_class_ic "QqBb" c = false.
Proof.
  destruct c as [[] [] [] [] [] [] [] []]; vm_compute; congruence.
Qed.

Lemma a_markers_head (c : ascii) (rest : string) :
  in_class_ic "Aa" c = false -> re_match a_markers (String c rest) = false.
Proof.
  intros E. unfold re_match, re_match_rest, a_markers.
  cbn [cat_all match_k]. rewrite E. reflexivity.
Qed.

Lemma q_markers_head (c : ascii) (rest : string) :
  in_class_ic "QqBb" c = false -> re_match q_markers (String c rest) = false.
Proof.
  intros E. unfold re_match. rewrite q_markers_rest.
  destruct rest; [reflexivity|]. rewrite E. reflexivity.
Qed.

(** X10: no line matches both the question-marker and the answer-marker
    pattern, so the order in which the two marker rules are tried does not
    matter. *)
Theorem X10_markers_exclusive (line : string) :
  re_match q_markers line && re_match a_markers line = false.
Proof.
  destruct line as [|c rest]; [reflexivity|].
  destruct (in_class_ic "Aa" c) eqn:E.
  - rewrite (q_markers_head c rest (class_a_not_q c E)). reflexivity.
  - rewrite (a_markers_head c rest E). apply andb_false_r.
Qed.

Lemma marker_letter (c : ascii) :
  in_class_ic "QqBbAa" c = true ->
  is_space c = false /\ a_to_z_ic c = true /\
  (in_class_ic "QqBb" c = true \/ in_class_ic "Aa" c = true).
Proof.
  destruct c as [[] [] [] [] [] [] [] []]; vm_compute; intros H;
    try discriminate H; auto.
Qed.

Lemma subpart_punctuation (p : ascii) :
  in_class ".):" p = true -> is_space p = false /\ in_class ".):-" p = true.
Proof.
  destruct p as [[] [] [] [] [] [] [] []]; vm_compute; intros H;
    try discriminate H; auto.
Qed.

(** X11: a line that starts with the letter a, b or q, in either case,
    followed by [.], [)] or [:] matches the subdivision pattern and also a
    marker pattern; the marker rules come first, so the subparts a), b) and
    q) never reach the subdivision rule. *)
Theorem X11_subparts_taken_by_markers (c p : ascii) (rest : string) :
  in_class_ic "QqBbAa" c = true ->
  in_class ".):" p = true ->
  re_match subdivision (String c (String p rest)) = true /\
  re_match q_markers (String c (String p rest))
  || re_match a_markers (String c (String p rest)) = true.
Proof.
  intros Hc Hp.
  destruct (marker_letter c Hc) as (Hs & Hl & Hqa).
  destruct (subpart_punctuation p Hp) as (Hps & Hp').
  split.
  - unfold re_match, re_match_rest, subdivision, ws_star.
    cbn [cat_all match_k star_k]. rewrite Hs, Hl, Hps, Hp, star_rest.
    reflexivity.
  - destruct Hqa as [Hq|Ha].
    + unfold re_match at 1. rewrite q_markers_rest, Hq, Hp'. reflexivity.
    + apply orb_true_iff. right.
      unfold re_match, re_match_rest, a_markers, ws_star.
      cbn [cat_all match_k]. rewrite Ha, Hp', star_rest. reflexivity.
Qed.

Lemma X11_subparts_witness :
  re_match subdivision "b) the stem" = true /\
  re_match q_markers "b) the stem" || re_match a_markers "b) the stem" = true.
Proof.
  apply (X11_subparts_taken_by_markers "b" ")" " the stem");
    vm_compute; reflexivity.
Defined.

(** ** Cleaning *)

Lemma all_allowed_remove (s : string) : all_allowed (remove_disallowed s) = true.
Proof.
  induction s as [|c s IH]; simpl; [reflexivity|].
  destruct (allowed c) eqn:E; simpl; [rewrite E|]; exact IH.
Qed.

Lemma all_allowed_lstrip (s : string) :
  all_allowed s = true -> all_allowed (lstrip s) = true.
Proof.
  induction s as [|c s IH]; simpl; [reflexivity|]. intros H.
  destruct (is_space c); [apply IH; apply andb_prop in H; tauto | exact H].
Qed.

Lemma all_allowed_rstrip (s : string) :
  all_allowed s = true -> all_allowed (rstrip s) = true.
Proof.
  induction s as [|c s IH]; simpl; [reflexivity|]. intros H.
  apply andb_prop in H as [Hc Hs]. specialize (IH Hs).
  destruct (rstrip s); [destruct (is_space c)|]; simpl in *;
    rewrite ?Hc; auto.
Qed.

Lemma remove_allowed_id (s : string) :
  all_allowed s = true -> remove_disallowed s = s.
Proof.
  induction s as [|c s IH]; simpl; [reflexivity|]. intros H.
  apply andb_prop in H as [-> Hs]. rewrite (IH Hs). reflexivity.
Qed.

(** X12: the cleaned form of a line holds only characters of the allowed
    set, has no whitespace at either end, and cleaning it again changes
    nothing. *)
Theorem X12_clean_idempotent (line : string) :
  all_allowed (clean line) = true /\
  strip (clean line) = clean line /\
  clean (clean line) = clean line.
Proof.
  assert (all_allowed (clean line) = true) as Ha.
  { unfold clean, strip.
    apply all_allowed_rstrip, all_allowed_lstrip, all_allowed_remove. }
  assert (strip (clean line) = clean line) as Hs
    by (unfold clean; apply strip_idem).
  repeat split; try assumption.
  unfold clean at 1. rewrite Hs, (remove_allowed_id _ Ha). exact Hs.
Qed.

(** ** A trailing newline *)

Lemma split_lines_nonempty (text : string) : split_lines text <> [].
Proof.
  destruct text as [|c text]; simpl; [discriminate|].
  destruct (Ascii.eqb c "010"); [discriminate|].
  destruct (split_lines text); discriminate.
Qed.

Lemma split_lines_newline (text : string) :
  split_lines (text +:+ String "010" "") = (split_lines text ++ [""])%list.
Proof.
  induction text as [|c text IH]; [reflexivity|].
  change (String c text +:+ String "010" "")
    with (String c (text +:+ String "010" "")).
  cbn [split_lines].
  destruct (Ascii.eqb c "010"); rewrite IH; [reflexivity|].
  pose proof (split_lines_nonempty text).
  destruct (split_lines text); [congruence | reflexivity].
Qed.

Lemma process_lines_app (l1 l2 : list string) (s : state) :
  process_lines s (l1 ++ l2)
  = process_lines s l1 ≫= fun s1 => process_lines s1 l2.
Proof.
  revert s. induction l1 as [|line l1 IH]; intros s; simpl; [reflexivity|].
  destruct (process_line s line); simpl; [apply IH | reflexivity].
Qed.

Lemma save_set_blank (s : state) :
  save_current_item (set_blank s) = set_blank <$> save_current_item s.
Proof.
  unfold save_current_item, set_blank. simpl.
  destruct (truthy (current_text s) && mode_truthy (current_mode s));
    [destruct (truthy (strip (collapse_ws (current_text s))))|];
    try reflexivity.
  destruct (current_mode s) as [k|]; simpl; [|reflexivity].
  destruct (results s !! k); reflexivity.
Qed.

Lemma trailing_newline (s : state) (text : string) :
  process_image s (text +:+ String "010" "")
  = set_blank <$> process_image s text.
Proof.
  unfold process_image. rewrite split_lines_newline, process_lines_app.
  destruct (process_lines s (split_lines text)) as [s1|]; simpl;
    [|reflexivity].
  change (process_line s1 "") with (Some (set_blank s1)). simpl.
  apply save_set_blank.
Qed.

(** ** The blank flag does not cross an image boundary *)

Lemma same_but_flag_refl (s : state) : same_but_flag s s.
Proof. repeat split. right. reflexivity. Qed.

Lemma alike_refl (o : option state) : alike o o.
Proof. destruct o; simpl; [apply same_but_flag_refl | exact I]. Qed.

Lemma same_but_flag_cases (s t : state) :
  same_but_flag s t ->
  s = t \/
  exists r m f1 f2, s = State r m "" f1 /\ t = State r m "" f2.
Proof.
  destruct s as [r m x f], t as [r' m' x' f']. unfold same_but_flag. simpl.
  intros (-> & -> & -> & [->| ->]); [right; eauto 6 | left; reflexivity].
Qed.

Lemma apply_rules_empty_buffer (r : gmap string (list string))
    (m : option string) (f1 f2 : bool) (line : string) :
  apply_rules (State r m "" f1) line = apply_rules (State r m "" f2) line.
Proof.
  unfold apply_rules, save_current_item. simpl.
  rewrite !andb_false_r. simpl. rewrite !andb_false_r. reflexivity.
Qed.

Lemma process_line_alike (s t : state) (line : string) :
  same_but_flag s t -> alike (process_line s line) (process_line t line).
Proof.
  intros H.
  destruct (same_but_flag_cases s t H) as [->|(r & m & f1 & f2 & -> & ->)];
    [apply alike_refl|].
  unfold process_line, set_blank. simpl.
  destruct (negb (truthy (strip line))); [apply same_but_flag_refl|].
  destruct (String.length (strip line) <? 2)%nat.
  { repeat split. left. reflexivity. }
  destruct (negb (truthy (clean line))); [apply same_but_flag_refl|].
  rewrite (apply_rules_empty_buffer r m f1 f2). apply alike_refl.
Qed.

Lemma process_lines_alike (lines : list string) (s t : state) :
  same_but_flag s t -> alike (process_lines s lines) (process_lines t lines).
Proof.
  revert s t. induction lines as [|line lines IH]; intros s t H; simpl.
  - exact H.
  - pose proof (process_line_alike s t line H) as H1.
    destruct (process_line s line), (process_line t line); simpl in *;
      try contradiction; auto.
Qed.

Lemma save_alike (s t : state) :
  same_but_flag s t -> alike (save_current_item s) (save_current_item t).
Proof.
  intros H.
  destruct (same_but_flag_cases s t H) as [->|(r & m & f1 & f2 & -> & ->)];
    [apply alike_refl|].
  rewrite !save_empty by reflexivity. simpl. repeat split. left. reflexivity.
Qed.

Lemma process_image_alike (s t : state) (text : string) :
  same_but_flag s t -> alike (process_image s text) (process_image t text).
Proof.
  intros H. unfold process_image.
  pose proof (process_lines_alike (split_lines text) s t H) as H1.
  destruct (process_lines s (split_lines text)),
           (process_lines t (split_lines text)); simpl in *;
    try contradiction; auto using save_alike.
Qed.

Lemma set_blank_alike (o : option state) :
  (forall s, o = Some s -> current_text s = "") -> alike (set_blank <$> o) o.
Proof.
  destruct o as [s|]; simpl; [|auto]. intros H.
  repeat split. left. simpl. apply (H s eq_refl).
Qed.

Lemma alike_trans (o1 o2 o3 : option state) :
  alike o1 o2 -> alike o2 o3 -> alike o1 o3.
Proof.
  destruct o1 as [a|], o2 as [b|], o3 as [c|]; simpl; try tauto.
  intros (R1 & M1 & T1 & F1) (R2 & M2 & T2 & F2).
  repeat split; try congruence.
  destruct F1 as [F1|F1]; [left; exact F1|].
  destruct F2 as [F2|F2]; [left; congruence | right; congruence].
Qed.

Lemma process_images_newlines (texts : list string) (s t : state) :
  same_but_flag s t ->
  alike (process_images s (map (fun text => text +:+ String "010" "") texts))
        (process_images t texts).
Proof.
  revert s t. induction texts as [|text texts IH]; intros s t H; simpl.
  - exact H.
  - assert (alike (process_image s (text +:+ String "010" ""))
                  (process_image t text)) as H1.
    { rewrite trailing_newline.
      eapply alike_trans; [|apply process_image_alike, H].
      apply set_blank_alike. intros s1 E. unfold process_image in E.
      destruct (process_lines s (split_lines text)); simpl in E;
        [|discriminate].
      apply (save_frame _ _ E). }
    destruct (process_image s (text +:+ String "010" "")),
             (process_image t text); simpl in *; try contradiction; auto.
Qed.

Lemma process_images_alike (texts : list string) (s t : state) :
  same_but_flag s t -> alike (process_images s texts) (process_images t texts).
Proof.
  revert s t. induction texts as [|text texts IH]; intros s t H; simpl.
  - exact H.
  - pose proof (process_image_alike s t text H) as H1.
    destruct (process_image s text), (process_image t text); simpl in *;
      try contradiction; auto.
Qed.

Lemma alike_results (o o' : option state) :
  alike o o' -> results <$> o = results <$> o'.
Proof.
  destruct o, o'; simpl; try tauto. intros (-> & _). reflexivity.
Qed.

(** X13: a newline at the end of an image's text (one more, empty, line)
    changes nothing of what the image does to the state but the blank flag,
    which ends up true; and the dict [separate_qa_with_regex] returns is the
    same whether or not the extracted texts end with a newline. *)
Theorem X13_trailing_newline
    (s : state) (text : string)
    (pipeline : string -> string) (image_list : list string) :
  process_image s (text +:+ String "010" "")
  = set_blank <$> process_image s text /\
  separate_qa_with_regex (fun img => pipeline img +:+ String "010" "") image_list
  = separate_qa_with_regex pipeline image_list.
Proof.
  split; [apply trailing_newline|].
  unfold separate_qa_with_regex, separate_texts.
  rewrite <- (map_map pipeline (fun text => text +:+ String "010" "")).
  pose proof (alike_results _ _
    (process_images_newlines (map pipeline image_list) initial_state
       initial_state (same_but_flag_refl _))) as H.
  destruct (process_images initial_state
              (map (fun text => text +:+ String "010" "")
                   (map pipeline image_list))),
           (process_images initial_state (map pipeline image_list));
    simpl in *; congruence.
Qed.

(** X14: the blank flag does not act across an image boundary.  From a
    state with an empty buffer, as every image leaves it, the images that
    follow produce the same output lists, Mode and buffer whether the flag
    is set or not. *)
Theorem X14_flag_irrelevant_at_boundary
    (r : gmap string (list string)) (m : option string) (f1 f2 : bool)
    (texts : list string) :
  alike (process_images (State r m "" f1) texts)
        (process_images (State r m "" f2) texts) /\
  results <$> process_images (State r m "" f1) texts
  = results <$> process_images (State r m "" f2) texts.
Proof.
  assert (alike (process_images (State r m "" f1) texts)
                (process_images (State r m "" f2) texts)) as H.
  { apply process_images_alike. repeat split. left. reflexivity. }
  split; [exact H | apply alike_results, H].
Qed.

(** ** Printing the results *)

Lemma numbered_length (i : nat) (items : list string) :
  List.length (numbered i items) = List.length items.
Proof.
  revert i. induction items as [|q items IH]; intros i; simpl;
    [reflexivity | rewrite IH; reflexivity].
Qed.

Lemma numbered_lookup (items : list string) (i k : nat) :
  numbered i items !! k
  = (fun q => str_of_nat (i + k) +:+ ". " +:+ q) <$> items !! k.
Proof.
  revert i k. induction items as [|q items IH]; intros i k; [reflexivity|].
  destruct k as [|k]; simpl.
  - rewrite Nat.add_0_r. reflexivity.
  - rewrite IH. replace (S i + k)%nat with (i + S k)%nat by lia. reflexivity.
Qed.

Lemma section_lines_length (msg : string) (items : list string) :
  List.length (section_lines msg items) = Nat.max 1 (List.length items).
Proof.
  destruct items as [|q items]; [reflexivity|].
  unfold section_lines. rewrite numbered_length. simpl. lia.
Qed.

Lemma section_lines_lookup (msg : string) (items : list string) (k : nat) (q : string) :
  items !! k = Some q ->
  section_lines msg items !! k = Some (str_of_nat (S k) +:+ ". " +:+ q).
Proof.
  intros H. destruct items as [|q0 items]; [discriminate|].
  unfold section_lines. rewrite numbered_lookup, H. reflexivity.
Qed.

Lemma split_lines_print (a rest : string) :
  split_lines (a +:+ String "010" rest)
  = (split_lines a ++ split_lines rest)%list.
Proof.
  induction a as [|c a IH]; [reflexivity|].
  change (String c a +:+ String "010" rest)
    with (String c (a +:+ String "010" rest)).
  cbn [split_lines]. rewrite IH.
  destruct (Ascii.eqb c "010"); [reflexivity|].
  pose proof (split_lines_nonempty a).
  destruct (split_lines a); [congruence | reflexivity].
Qed.

Lemma split_lines_stdout (calls : list string) :
  split_lines (stdout calls) = (flat_map split_lines calls ++ [""])%list.
Proof.
  induction calls as [|a calls IH]; [reflexivity|].
  cbn [stdout flat_map]. rewrite split_lines_print, IH, app_assoc.
  reflexivity.
Qed.

Lemma output_lines_calls (calls : list string) :
  output_lines calls = flat_map split_lines calls.
Proof.
  unfold output_lines. rewrite split_lines_stdout. apply removelast_last.
Qed.

Lemma split_one_line (a : string) : one_line a = true -> split_lines a = [a].
Proof.
  induction a as [|c a IH]; [reflexivity|]. cbn [one_line split_lines].
  intros H. apply andb_prop in H as [Hc Ha]. apply negb_true_iff in Hc.
  rewrite Hc, (IH Ha). reflexivity.
Qed.

Lemma flat_map_one_line (l : list string) :
  Forall (fun a => one_line a = true) l -> flat_map split_lines l = l.
Proof.
  induction 1 as [|a l Ha _ IH]; [reflexivity|].
  cbn [flat_map]. rewrite (split_one_line a Ha), IH. reflexivity.
Qed.

Lemma one_line_app (a b : string) :
  one_line (a +:+ b) = one_line a && one_line b.
Proof.
  induction a as [|c a IH]; [reflexivity|].
  change (String c a +:+ b) with (String c (a +:+ b)).
  cbn [one_line]. rewrite IH, andb_assoc. reflexivity.
Qed.

Lemma one_line_digits (d : Decimal.uint) :
  one_line (NilEmpty.string_of_uint d) = true.
Proof. induction d; simpl; auto. Qed.

Lemma one_line_numbered (items : list string) (i : nat) :
  Forall (fun q => one_line q = true) items ->
  Forall (fun a => one_line a = true) (numbered i items).
Proof.
  intros H. revert i. induction H as [|q items Hq _ IH]; intros i; simpl;
    constructor; [|apply IH].
  rewrite !one_line_app, Hq. unfold str_of_nat. rewrite one_line_digits.
  reflexivity.
Qed.

Lemma one_line_section (msg : string) (items : list string) :
  one_line msg = true ->
  Forall (fun q => one_line q = true) items ->
  Forall (fun a => one_line a = true) (section_lines msg items).
Proof.
  intros Hmsg H. destruct items as [|q items].
  - repeat constructor. exact Hmsg.
  - apply one_line_numbered, H.
Qed.

(** X15: given a dict with both lists, whose items hold no newline,
    [print_results] raises nothing and writes, line by line: an empty line,
    a rule, [QUESTIONS], a rule, the questions, an empty line, a rule,
    [ANSWERS], a rule, the answers, an empty line and a rule.  That is 10
    fixed lines and, for each list, one line per item or one line for an
    empty list; the items of a list come in order, each on its own line,
    numbered from 1: question [k] (from 0) is on line [4 + k] and answer
    [k] on line [8 + max 1 (len questions) + k]. *)
Theorem X15_print_layout
    (output : gmap string (list string)) (qs ans : list string) :
  Questions output = Some qs ->
  Answers output = Some ans ->
  Forall (fun q => one_line q = true) qs ->
  Forall (fun a => one_line a = true) ans ->
  exists calls,
    print_results output = Printed calls /\
    output_lines calls
    = ([""; rule; "QUESTIONS"; rule]
       ++ section_lines "No questions detected" qs
       ++ [""; rule; "ANSWERS"; rule]
       ++ section_lines "No answers detected" ans
       ++ [""; rule])%list /\
    List.length (output_lines calls)
    = (10 + Nat.max 1 (List.length qs) + Nat.max 1 (List.length ans))%nat /\
    (forall k q, qs !! k = Some q ->
       output_lines calls !! (4 + k)%nat
       = Some (str_of_nat (S k) +:+ ". " +:+ q)) /\
    (forall k a, ans !! k = Some a ->
       output_lines calls !! (8 + Nat.max 1 (List.length qs) + k)%nat
       = Some (str_of_nat (S k) +:+ ". " +:+ a)).
Proof.
  unfold Questions, Answers, print_results. intros -> -> Fq Fa.
  pose proof (section_lines_length "No questions detected" qs) as Lq.
  pose proof (section_lines_length "No answers detected" ans) as La.
  remember (section_lines "No questions detected" qs) as sq eqn:Esq.
  remember (section_lines "No answers detected" ans) as sa eqn:Esa.
  set (upper := ([""; rule; "QUESTIONS"; rule] ++ sq
                 ++ [""; rule; "ANSWERS"; rule])%list).
  assert (List.length upper = (8 + Nat.max 1 (List.length qs))%nat) as Lu
    by (unfold upper; rewrite !length_app, Lq; simpl; lia).
  eexists. split; [reflexivity|].
  assert (output_lines
            (([nl_rule; "QUESTIONS"; rule] ++ sq ++ [nl_rule; "ANSWERS"; rule])
             ++ sa ++ [nl_rule])
          = (upper ++ sa ++ [""; rule])%list) as E.
  { rewrite output_lines_calls. unfold upper.
    rewrite !flat_map_app.
    rewrite (flat_map_one_line sq)
      by (subst sq; apply one_line_section; [reflexivity | exact Fq]).
    rewrite (flat_map_one_line sa)
      by (subst sa; apply one_line_section; [reflexivity | exact Fa]).
    reflexivity. }
  rewrite E. split; [|split; [|split]].
  - unfold upper. rewrite <- !app_assoc. reflexivity.
  - rewrite !length_app, Lu, La. simpl. lia.
  - intros k q H.
    pose proof (section_lines_lookup "No questions detected" qs k q H) as Hk.
    rewrite <- Esq in Hk.
    pose proof (lookup_lt_Some _ _ _ Hk) as Hlt.
    rewrite lookup_app_l by lia. unfold upper.
    change ((sq ++ [""; rule; "ANSWERS"; rule])%list !! k
            = Some (str_of_nat (S k) +:+ ". " +:+ q)).
    rewrite lookup_app_l by exact Hlt. exact Hk.
  - intros k a H.
    pose proof (section_lines_lookup "No answers detected" ans k a H) as Hk.
    rewrite <- Esa in Hk.
    pose proof (lookup_lt_Some _ _ _ Hk) as Hlt.
    rewrite lookup_app_r by lia. rewrite Lu.
    replace (8 + Nat.max 1 (List.length qs) + k
             - (8 + Nat.max 1 (List.length qs)))%nat with k by lia.
    rewrite lookup_app_l by exact Hlt. exact Hk.
Qed.

Lemma X15_print_layout_witness :
  exists calls,
    print_results (result_dict ["Define OS"; "Define RAM"] []) = Printed calls /\
    List.length (output_lines calls) = 13%nat /\
    output_lines calls !! 5%nat = Some "2. Define RAM" /\
    output_lines calls !! 10%nat = Some "No answers detected".
Proof.
  destruct (X15_print_layout (result_dict ["Define OS"; "Define RAM"] [])
              ["Define OS"; "Define RAM"] [])
    as (calls & E & Hall & L & Hq & _);
    [reflexivity | reflexivity | repeat constructor | constructor |].
  exists calls. split; [exact E|]. split; [exact L|]. split.
  - apply (Hq 1%nat "Define RAM"). reflexivity.
  - rewrite Hall. reflexivity.
Defined.

Lemma string_of_uint_head (d : Decimal.uint) :
  match NilEmpty.string_of_uint d with
  | EmptyString => True
  | String c _ => is_digit c = true
  end.
Proof. destruct d; simpl; auto. Qed.

Lemma numbered_line_head (i : nat) (q : string) :
  exists c rest,
    str_of_nat i +:+ ". " +:+ q = String c rest /\
    (is_digit c = true \/ c = "."%char).
Proof.
  unfold str_of_nat. pose proof (string_of_uint_head (Nat.to_uint i)) as H.
  destruct (NilEmpty.string_of_uint (Nat.to_uint i)) as [|c rest].
  - exists "."%char, (String " " q). split; [reflexivity | right; reflexivity].
  - exists c, (rest +:+ ". " +:+ q). split; [reflexivity | left; exact H].
Qed.

Lemma numbered_not_in (msg : string) (i : nat) (items : list string) :
  (forall c rest, msg = String c rest -> is_digit c = false /\ c <> "."%char) ->
  ~ In msg (numbered i items).
Proof.
  intros Hmsg. revert i. induction items as [|q items IH]; intros i; simpl.
  - tauto.
  - intros [E|H]; [|exact (IH _ H)].
    destruct (numbered_line_head i q) as (c & rest & Ec & Hc).
    rewrite Ec in E. destruct (Hmsg c rest (eq_sym E)) as [Hd Hp].
    destruct Hc; congruence.
Qed.

Lemma letter_head (msg : string) (c0 : ascii) (rest0 : string) :
  msg = String c0 rest0 -> is_digit c0 = false -> c0 <> "."%char ->
  forall c rest, msg = String c rest -> is_digit c = false /\ c <> "."%char.
Proof. intros -> Hd Hp c rest E. injection E as <- <-. auto. Qed.

Lemma section_lines_in (msg other : string) (items : list string) :
  (forall c rest, other = String c rest -> is_digit c = false /\ c <> "."%char) ->
  In other (section_lines msg items) <-> items = [] /\ msg = other.
Proof.
  intros Hhead. destruct items as [|q items].
  - simpl. intuition.
  - split; [|intros [H _]; discriminate H].
    intros H. exfalso. exact (numbered_not_in other 1 (q :: items) Hhead H).
Qed.

(** X16: [print_results] prints ["No questions detected"] exactly when the
    list of questions is empty, and ["No answers detected"] exactly when the
    list of answers is: no header and no numbered item can be mistaken for
    either message. *)
Theorem X16_none_detected
    (output : gmap string (list string)) (qs ans : list string) :
  Questions output = Some qs ->
  Answers output = Some ans ->
  exists lines,
    print_results output = Printed lines /\
    (In "No questions detected" lines <-> qs = []) /\
    (In "No answers detected" lines <-> ans = []).
Proof.
  unfold Questions, Answers, print_results. intros -> ->.
  eexists. split; [reflexivity|].
  assert (forall c rest, "No questions detected" = String c rest ->
            is_digit c = false /\ c <> "."%char) as Hq
    by (apply (letter_head _ "N" _ eq_refl); [reflexivity | discriminate]).
  assert (forall c rest, "No answers detected" = String c rest ->
            is_digit c = false /\ c <> "."%char) as Ha
    by (apply (letter_head _ "N" _ eq_refl); [reflexivity | discriminate]).
  rewrite !in_app_iff.
  rewrite !(section_lines_in _ "No questions detected") by exact Hq.
  rewrite !(section_lines_in _ "No answers detected") by exact Ha.
  split; split.
  - intros [[H|[[H _]|H]]|[[_ H]|H]]; try assumption; exfalso;
      vm_compute in H; intuition discriminate.
  - intros ->. left. right. left. split; reflexivity.
  - intros [[H|[[_ H]|H]]|[[H _]|H]]; try assumption; exfalso;
      vm_compute in H; intuition discriminate.
  - intros ->. right. left. split; reflexivity.
Qed.

Lemma X16_none_detected_witness :
  exists lines,
    print_results (result_dict ["Define OS"] []) = Printed lines /\
    (In "No questions detected" lines <-> ["Define OS"] = []) /\
    (In "No answers detected" lines <-> @nil string = []).
Proof.
  apply (X16_none_detected (result_dict ["Define OS"] []) ["Define OS"] []);
    reflexivity.
Defined.

(** X17: the main program never fails with a [KeyError]: whatever the
    extraction stage returns for the images, [print_results] finds both
    lists in the dict that [separate_qa_with_regex] returns and prints to
    the end. *)
Theorem X17_main_never_raises
    (pipeline : string -> string) (image_list : list string) :
  exists r lines,
    separate_qa_with_regex pipeline image_list = Some r /\
    print_results r = Printed lines.
Proof.
  unfold separate_qa_with_regex, separate_texts.
  destruct (process_images_ok (map pipeline image_list) initial_state
              initial_well_formed) as (s & -> & ([qs Hq] & [ans Ha] & _) & _).
  simpl. exists (results s). unfold Questions, Answers in *.
  unfold print_results. rewrite Hq, Ha. eauto.
Qed.

(** X18: when no image of the list can be read ([cv2.imread] gives [None]
    for each), [source_pipeline] returns [""] for each, the result is two
    empty lists, and what is printed is the two headers with
    ["No questions detected"] and ["No answers detected"]. *)
Theorem X18_no_image_readable {image : Type}
    (imread : string -> option image) (recognize : image -> string)
    (image_list : list string) :
  Forall (fun img => imread img = None) image_list ->
  separate_qa_with_regex (source_pipeline imread recognize) image_list
  = Some (result_dict [] []) /\
  print_results (result_dict [] [])
  = Printed [nl_rule; "QUESTIONS"; rule; "No questions detected";
             nl_rule; "ANSWERS"; rule; "No answers detected"; nl_rule].
Proof.
  intros H. split; [|reflexivity].
  unfold separate_qa_with_regex, separate_texts.
  destruct (process_images_silent
              (map (source_pipeline imread recognize) image_list) initial_state)
    as (t & f & ->); [|reflexivity|reflexivity].
  apply Forall_map. eapply Forall_impl; [exact H|].
  intros img E. unfold source_pipeline. simpl. rewrite E. reflexivity.
Qed.

Lemma X18_no_image_readable_witness :
  separate_qa_with_regex
    (source_pipeline (fun _ : string => @None unit) (fun _ => "Q: lost"))
    ["a.jpeg"; "b.jpeg"]
  = Some (result_dict [] []).
Proof.
  apply (X18_no_image_readable (fun _ : string => @None unit)
           (fun _ => "Q: lost") ["a.jpeg"; "b.jpeg"]).
  repeat constructor.
Defined.

(** ** More images *)

Lemma process_images_app (t1 t2 : list string) (s : state) :
  process_images s (t1 ++ t2)
  = process_images s t1 ≫= fun s1 => process_images s1 t2.
Proof.
  revert s. induction t1 as [|text t1 IH]; intros s; simpl; [reflexivity|].
  destruct (process_image s text); simpl; [apply IH | reflexivity].
Qed.

(** X19: images added at the end of the list leave the items of the
    earlier images as they are: the lists returned for the longer list are
    the lists returned for the shorter one with items appended. *)
Theorem X19_more_images_append
    (pipeline : string -> string) (image_list more : list string) :
  exists r r' qs ans qs' ans',
    separate_qa_with_regex pipeline image_list = Some r /\
    separate_qa_with_regex pipeline (image_list ++ more) = Some r' /\
    Questions r = Some qs /\ Answers r = Some ans /\
    Questions r' = Some (qs ++ qs')%list /\
    Answers r' = Some (ans ++ ans')%list.
Proof.
  unfold separate_qa_with_regex, separate_texts.
  rewrite map_app, process_images_app.
  destruct (process_images_ok (map pipeline image_list) initial_state
              initial_well_formed) as (s & -> & Hwf & _).
  destruct (process_images_ok (map pipeline more) s Hwf)
    as (s' & E' & _ & qs' & ans' & Eq & Ea & _).
  simpl. rewrite E'. simpl.
  destruct Hwf as ([qs Hq] & [ans Ha] & _).
  exists (results s), (results s'), qs, ans, qs', ans'.
  rewrite Eq, Ea, Hq, Ha. repeat split.
Qed.

(** ** Entering Answers mode *)

(** X20: Mode becomes Answers in two ways only: by a line that matches the
    answer-marker pattern and does not end with [?], or by the blank-line
    transition (flag set, Mode Questions, non-empty buffer).  No other line
    switches to Answers. *)
Theorem X20_entering_answers (s s' : state) (line : string) :
  process_line s line = Some s' ->
  current_mode s <> Some "Answers" ->
  current_mode s' = Some "Answers" ->
  (re_match a_markers (clean line) = true /\
   endswith_qmark (clean line) = false) \/
  (previous_line_was_empty s = true /\ current_mode s = Some "Questions" /\
   current_text s <> "").
Proof.
  unfold process_line, set_blank. intros H Hs Hs'.
  destruct (negb (truthy (strip line)));
    [injection H as <-; contradiction|].
  destruct (String.length (strip line) <? 2)%nat;
    [injection H as <-; contradiction|].
  destruct (negb (truthy (clean line)));
    [injection H as <-; contradiction|].
  revert H. unfold apply_rules.
  destruct (endswith_qmark (clean line)).
  { intros H.
    destruct (mode_is (current_mode s) "Answers" && truthy (current_text s)) eqn:EA.
    - apply andb_prop in EA as [EA _]. unfold mode_is in EA.
      destruct (current_mode s); [|discriminate].
      apply String.eqb_eq in EA. congruence.
    - simpl in H.
      destruct (mode_is (current_mode s) "Questions" && truthy (current_text s)
                && negb (previous_line_was_empty s)).
      + injection H as <-. contradiction.
      + destruct (save_current_item s); simpl in H; [|discriminate].
        injection H as <-. discriminate. }
  destruct (re_match q_markers (clean line)).
  { intros H. destruct (save_current_item s); simpl in H; [|discriminate].
    injection H as <-. discriminate. }
  destruct (re_match a_markers (clean line)); [auto|].
  destruct (re_match subdivision (clean line)).
  { intros H. injection H as <-. contradiction. }
  destruct (previous_line_was_empty s && mode_is (current_mode s) "Questions"
            && truthy (current_text s)) eqn:EB.
  { intros _. right.
    apply andb_prop in EB as [EB Ht]. apply andb_prop in EB as [Hf Hm].
    apply truthy_true in Ht. unfold mode_is in Hm.
    destruct (current_mode s); [|discriminate].
    apply String.eqb_eq in Hm. subst. auto. }
  destruct (mode_truthy (current_mode s)); intros H; injection H as <-;
    [contradiction | discriminate].
Qed.

Lemma X20_entering_answers_witness :
  (re_match a_markers (clean "Ans: root cap") = true /\
   endswith_qmark (clean "Ans: root cap") = false) \/
  (previous_line_was_empty open_question = true /\
   current_mode open_question = Some "Questions" /\
   current_text open_question <> "").
Proof.
  apply (X20_entering_answers open_question
           (State (result_dict ["Name the parts"] []) (Some "Answers")
                  "root cap" false)
           "Ans: root cap").
  - vm_compute. reflexivity.
  - discriminate.
  - reflexivity.
Defined.
